(** * utils/problems.py of CodeGrind-Bot: the LeetCode client

    A shallow embedding of [src/utils/problems.py]: the HTML normaliser
    ([html_to_markdown], [parse_content]), the five GraphQL operations and
    the rate-limit guard around [fetch_problems_solved_and_rank].

    Conventions.
    - A decoded JSON document is a Python object: [Py.value].
    - A Python call either returns or raises: [Py.result].
    - Code with effects (HTTP requests, logging, sleeping, the semaphore)
      threads the chronological list of effects performed so far, [trace].
    - Python [str] is embedded as [string]; one [ascii] stands for one
      code point. *)

From Stdlib Require Import String Ascii List ZArith Lia Bool Arith.
From Stdlib Require Import Floats.PrimFloat.
Import ListNotations.

Open Scope string_scope.
Open Scope Z_scope.

(** ** Python objects, exceptions and the built-ins the module relies on *)

Module Py.

(** The exception classes that can be raised by the statements of the
    module.  [RateLimitReached] is the module's own class. *)
Inductive exn : Set :=
| KeyError
| TypeError
| IndexError
| ValueError
| SyntaxError
| AttributeError
| RateLimitReached.

Definition exn_eqb (a b : exn) : bool :=
  match a, b with
  | KeyError, KeyError | TypeError, TypeError | IndexError, IndexError
  | ValueError, ValueError | SyntaxError, SyntaxError
  | AttributeError, AttributeError
  | RateLimitReached, RateLimitReached => true
  | _, _ => false
  end.

Inductive result (A : Type) : Type :=
| Ok (a : A)
| Raise (e : exn).
Arguments Ok {A} a.
Arguments Raise {A} e.

Definition bind {A B} (r : result A) (k : A -> result B) : result B :=
  match r with
  | Ok a => k a
  | Raise e => Raise e
  end.

(** What [json.loads] can produce. A [dict] is kept as its list of items;
    [response.json()] yields dicts with string keys, each key once. *)
#[warnings="-register-all"]
Inductive value : Type :=
| VNone
| VBool (b : bool)
| VInt (z : Z)
| VFloat (f : float)
| VStr (s : string)
| VList (l : list value)
| VDict (items : list (string * value)).

(** Truth value testing, as used by [if x] and [not x]. *)
Definition truthy (v : value) : bool :=
  match v with
  | VNone => false
  | VBool b => b
  | VInt z => negb (z =? 0)
  | VFloat f => negb (PrimFloat.eqb f 0%float)
  | VStr s => negb (String.length s =? 0)%nat
  | VList l => negb (List.length l =? 0)%nat
  | VDict items => negb (List.length items =? 0)%nat
  end.

Fixpoint dict_get (items : list (string * value)) (k : string)
  : option value :=
  match items with
  | [] => None
  | (k', v) :: rest => if String.eqb k' k then Some v else dict_get rest k
  end.

(** [obj[key]] with a string key. *)
Definition getitem (obj : value) (k : string) : result value :=
  match obj with
  | VDict items =>
      match dict_get items k with
      | Some v => Ok v
      | None => Raise KeyError
      end
  | _ => Raise TypeError
  end.

(** [obj[0]]. *)
Definition getitem0 (obj : value) : result value :=
  match obj with
  | VList (x :: _) => Ok x
  | VList [] => Raise IndexError
  | VStr (String c _) => Ok (VStr (String c EmptyString))
  | VStr EmptyString => Raise IndexError
  | VDict _ => Raise KeyError
  | _ => Raise TypeError
  end.

Fixpoint chars (s : string) : list value :=
  match s with
  | EmptyString => []
  | String c s' => VStr (String c EmptyString) :: chars s'
  end.

(** The items a [for] loop (or a generator expression) draws from an
    object. *)
Definition iter (obj : value) : result (list value) :=
  match obj with
  | VList l => Ok l
  | VDict items => Ok (map (fun kv => VStr (fst kv)) items)
  | VStr s => Ok (chars s)
  | _ => Raise TypeError
  end.

(** [obj == "text"] for a string literal. *)
Definition eq_str (obj : value) (s : string) : bool :=
  match obj with
  | VStr s' => String.eqb s' s
  | _ => false
  end.

(** [s.find(sub)]: lowest index of [sub] in [s], or -1. *)
Definition find (s sub : string) : Z :=
  match String.index 0 sub s with
  | Some n => Z.of_nat n
  | None => -1
  end.

(** Bound of a slice: negative bounds count from the end, and every
    bound is clipped to the string. *)
Definition clip (len i : Z) : Z :=
  if i <? 0 then Z.max (i + len) 0 else Z.min i len.

(** [s[lo:hi]]; an omitted bound is [None]. *)
Definition slice (s : string) (lo hi : option Z) : string :=
  let len := Z.of_nat (String.length s) in
  let start := match lo with Some i => clip len i | None => 0 end in
  let stop := match hi with Some i => clip len i | None => len end in
  if start <? stop
  then String.substring (Z.to_nat start) (Z.to_nat (stop - start)) s
  else EmptyString.

End Py.

Import Py.

Notation "'let?' x := r 'in' k" := (Py.bind r (fun x => k))
  (at level 10, x name, r at level 100, k at level 200).

(** ** Text helpers *)

Definition dquote : string := String "034"%char EmptyString.
Definition newline : string := String "010"%char EmptyString.

Fixpoint drop (n : nat) (s : string) : string :=
  match n, s with
  | O, _ => s
  | S k, String _ s' => drop k s'
  | S _, EmptyString => EmptyString
  end.

Fixpoint take (n : nat) (s : string) : string :=
  match n, s with
  | S k, String c s' => String c (take k s')
  | _, _ => EmptyString
  end.

(** [s.startswith(lit)]. *)
Fixpoint starts_with (lit s : string) : bool :=
  match lit with
  | EmptyString => true
  | String a lit' =>
      match s with
      | EmptyString => false
      | String b s' => Ascii.eqb a b && starts_with lit' s'
      end
  end.

(** [contains sub s]: [sub in s]. *)
Fixpoint contains (sub s : string) : bool :=
  starts_with sub s ||
  match s with
  | EmptyString => false
  | String _ s' => contains sub s'
  end.

(** ** The fragment of [re] the module uses

    Every pattern of the module is a chain of literals joined by lazy
    wildcards ([.*?] under [re.DOTALL]) and none matches the empty string.
    A pattern is embedded as the function that tries it at the head of the
    text: it gives the number of characters consumed and the replacement.

    For a chain [l0 .*? l1 .*? ... ln] the backtracking matcher commits to
    the first occurrence of [l1] after [l0], then to the first occurrence
    of [l2] after that, and so on: if nothing completes the chain behind the
    first occurrence of a literal, nothing completes it behind a later
    one. *)

Module Re.

Definition pattern : Type := string -> option (nat * string).

(** [re.sub(pattern, repl, s)]: matches are taken left to right and do not
    overlap; the scan resumes right behind a match. [skip] counts the
    characters of the current match still to be passed over. *)
Fixpoint sub_from (p : pattern) (skip : nat) (s : string) : string :=
  match s with
  | EmptyString => EmptyString
  | String c s' =>
      match skip with
      | S k => sub_from p k s'
      | O =>
          match p s with
          | Some (S n, r) => r ++ sub_from p n s'
          | _ => String c (sub_from p O s')
          end
      end
  end.

Definition sub (p : pattern) (s : string) : string := sub_from p 0 s.

(** A literal pattern with a constant replacement; also [str.replace]. *)
Definition literal (lit repl : string) : pattern :=
  fun s =>
    if starts_with lit s then Some (String.length lit, repl) else None.

(** Characters consumed by [.*? l1 .*? l2 ...] at the head of [s]. *)
Fixpoint lazy_chain (lits : list string) (s : string) : option nat :=
  match lits with
  | [] => Some O
  | l :: rest =>
      match String.index 0 l s with
      | None => None
      | Some i =>
          let used := (i + String.length l)%nat in
          match lazy_chain rest (drop used s) with
          | Some n => Some (used + n)%nat
          | None => None
          end
      end
  end.

(** The pattern [l0 .*? l1 .*? ...] replaced by [repl]. *)
Definition chain (l0 : string) (lits : list string) (repl : string)
  : pattern :=
  fun s =>
    if starts_with l0 s
    then match lazy_chain lits (drop (String.length l0) s) with
         | Some n => Some ((String.length l0 + n)%nat, repl)
         | None => None
         end
    else None.

(** First position at which one of two literals occurs, with the length of
    the literal found there. *)
Definition first_of (a b s : string) : option (nat * nat) :=
  match String.index 0 a s, String.index 0 b s with
  | Some i, Some j =>
      if (i <=? j)%nat then Some (i, String.length a)
      else Some (j, String.length b)
  | Some i, None => Some (i, String.length a)
  | None, Some j => Some (j, String.length b)
  | None, None => None
  end.

End Re.

(** ** [html_to_markdown] and [parse_content] *)

(** [m.group(0).replace("<b>", "")...replace("</u>", "")]: the lambda of
    the first [re.sub]. *)
Definition strip_inline_markup (g0 : string) : string :=
  let replace old new s := Re.sub (Re.literal old new) s in
  replace "</u>" ""
    (replace "<u>" ""
      (replace "</strong>" ""
        (replace "<strong>" ""
          (replace "</em>" ""
            (replace "<em>" ""
              (replace "</b>" ""
                (replace "<b>" "" g0))))))).

(** [(<code>|<pre>)(.*?)(<[/]code>|<[/]pre>)] with the lambda as
    replacement. *)
Definition code_block : Re.pattern :=
  fun s =>
    let opener :=
      if starts_with "<code>" s then Some 6%nat
      else if starts_with "<pre>" s then Some 5%nat
      else None in
    match opener with
    | None => None
    | Some o =>
        match Re.first_of "</code>" "</pre>" (drop o s) with
        | Some (i, len) =>
            let n := (o + i + len)%nat in
            Some (n, strip_inline_markup (take n s))
        | None => None
        end
    end.

(** The list [subsitutions] of the source, in its order. *)
Definition subsitutions : list Re.pattern :=
  [ Re.literal "<sup>" "^";
    Re.literal "</sup>" "";
    Re.chain "<img" ["src=" ++ dquote; dquote; ">"] "";
    Re.chain "<style" [">"; "</style>"] "";
    Re.literal "&nbsp;" " " ].

(** Everything [html_to_markdown] does before it calls the converter. *)
Definition prepare_html (html : string) : string :=
  fold_left (fun h p => Re.sub p h) subsitutions (Re.sub code_block html).

(** The last step: [re.sub(r"\n\n", "\n", markdown)]. *)
Definition collapse_newlines (markdown : string) : string :=
  Re.sub (Re.literal (newline ++ newline) newline) markdown.

(** What the module calls but does not define: the [markdownify] and [ast]
    libraries, the built-in [int], the rating table of the bot and the
    scoring function of [utils.common]. [literal_eval] is taken on the
    JSON-shaped fragment of Python literals. [RateLimitReached] is a class
    of [utils.problems] itself, which [utils.common] cannot raise: it is
    imported by [utils.problems], not the other way round. *)
Class Externals : Type := {
  markdownify : string -> string;
  literal_eval : value -> result value;
  fetch_rating : value -> result value;
  int_of : value -> result Z;
  convert_to_score : value -> value -> value -> result value;
  convert_to_score_foreign :
    forall easy medium hard,
      convert_to_score easy medium hard <> Raise RateLimitReached
}.

Section Normaliser.

Context {ext : Externals}.

Definition html_to_markdown (html : string) : string :=
  let html := prepare_html html in
  let markdown := markdownify html in
  collapse_newlines markdown.

Definition example_one_marker : string :=
  "<p><strong class=" ++ dquote ++ "example" ++ dquote
  ++ ">Example 1:</strong></p>".

Definition example_two_marker : string :=
  "<p><strong class=" ++ dquote ++ "example" ++ dquote
  ++ ">Example 2:</strong></p>".

Definition follow_up_marker : string := "<strong>Follow up:</strong> ".

Definition parse_content (content : string)
  : string * string * option string :=
  let position_example_one := Py.find content example_one_marker in
  let position_example_two := Py.find content example_two_marker in
  let position_follow_up := Py.find content follow_up_marker in
  let description :=
    html_to_markdown (Py.slice content None (Some position_example_one)) in
  let example_one :=
    html_to_markdown
      (Py.slice content
         (Some (position_example_one
                + Z.of_nat (String.length example_one_marker)))
         (Some position_example_two)) in
  let follow_up :=
    if negb (position_follow_up =? -1)
    then Some (html_to_markdown
                 (Py.slice content
                    (Some (position_follow_up
                           + Z.of_nat (String.length follow_up_marker)))
                    None))
    else None in
  (description, example_one, follow_up).

End Normaliser.

(** ** Effects: requests, log lines, the semaphore and sleeps *)

(** The [json=] argument of a request. The GraphQL text is fixed per
    operation and is identified by [operationName]. *)
Record request : Type := {
  operationName : string;
  variables : value
}.

(** What the module reads from a response: [response.status] and the
    outcome of [await response.json()]. *)
Record response : Type := {
  status : Z;
  json : result value
}.

(** A client session answers the n-th request (counted from 0) it is sent;
    this is how a test backend scripts [429, 200] and the like. *)
Definition session : Type := nat -> request -> response.

Inductive event : Type :=
| Post (payload : request)
| LogInfo (title_slug : string)
| LogStatus (fn : string) (code : Z)
| LogDecode (fn : string) (response_data : value)
| ChannelRateLimited
| ChannelForbidden
| Acquire
| Release
| Sleep
| Backoff (wait : Z).

Definition trace : Type := list event.

Definition is_post (e : event) : bool :=
  match e with Post _ => true | _ => false end.

(** Number of HTTP requests issued in a trace. *)
Definition posts (t : trace) : nat := List.length (filter is_post t).

(** The slots a trace still holds: acquisitions minus releases. *)
Definition slot_change (e : event) : Z :=
  match e with
  | Acquire => 1
  | Release => -1
  | _ => 0
  end.

Definition held (t : trace) : Z :=
  fold_right (fun e n => slot_change e + n) 0 t.

Definition M (A : Type) : Type := trace -> result A * trace.

Definition ret {A} (a : A) : M A := fun t => (Ok a, t).

Definition raise {A} (e : exn) : M A := fun t => (Raise e, t).

Definition lift {A} (r : result A) : M A := fun t => (r, t).

Definition mbind {A B} (m : M A) (k : A -> M B) : M B :=
  fun t =>
    match m t with
    | (Ok a, t') => k a t'
    | (Raise e, t') => (Raise e, t')
    end.

Definition emit (e : event) : M unit := fun t => (Ok tt, (t ++ [e])%list).

Notation "x <- m ;; k" := (mbind m (fun x => k))
  (at level 61, m at next level, right associativity).
Notation "m ;; k" := (mbind m (fun _ => k))
  (at level 61, right associativity).
Notation "m >>= k" := (mbind m k) (at level 58, left associativity).

(** [try: body / except cls: handler]: only [cls] is caught. *)
Definition try_except {A} (body : M A) (cls : exn) (handler : M A) : M A :=
  fun t =>
    match body t with
    | (Raise e, t') => if exn_eqb e cls then handler t' else (Raise e, t')
    | r => r
    end.

(** [async with semaphore: body]: the slot is given back however the body
    is left. *)
Definition async_with_semaphore {A} (body : M A) : M A :=
  fun t =>
    let '(r, t') := body (t ++ [Acquire])%list in
    (r, (t' ++ [Release])%list).

(** [client_session.post(URL, json=payload, headers=HEADERS, timeout=10)]. *)
Definition post (client_session : session) (payload : request)
  : M response :=
  fun t => (Ok (client_session (posts t) payload), (t ++ [Post payload])%list).

(** [obj[k1][k2]...]. *)
Fixpoint getpath (obj : value) (keys : list string) : result value :=
  match keys with
  | [] => Ok obj
  | k :: rest => let? inner := getitem obj k in getpath inner rest
  end.

(** ** Records *)

Record QuestionInfo : Type := {
  premium : value;
  question_id : value;
  difficulty : value;
  title : value;
  link : string;
  total_accepted : value;
  total_submission : value;
  ac_rate : value;
  question_rating : option Z;
  description : string;
  example_one : string;
  follow_up : option string
}.

Record Submissions : Type := {
  easy : value;
  medium : value;
  hard : value;
  score : value
}.

Record UserStats : Type := {
  real_name : value;
  submissions : Submissions
}.

(** Modelled from the spec: the enum [Difficulty] of [constants], which is
    not among the sources; the spec lists its members EASY, MEDIUM, HARD and
    the wildcard RANDOM. *)
Inductive Difficulty : Set := EASY | MEDIUM | HARD | RANDOM.

Definition Difficulty_name (d : Difficulty) : string :=
  match d with
  | EASY => "EASY"
  | MEDIUM => "MEDIUM"
  | HARD => "HARD"
  | RANDOM => "RANDOM"
  end.

Definition is_RANDOM (d : Difficulty) : bool :=
  match d with RANDOM => true | _ => false end.

(** ** The operations of the client *)

(** The [payload] dictionaries. The daily query has no variables. *)

Definition random_question_payload (difficulty : Difficulty) : request :=
  {| operationName := "randomQuestion";
     variables :=
       VDict [ ("categorySlug", VStr "all-code-essentials");
               ("filters",
                if negb (is_RANDOM difficulty)
                then VDict [("difficulty",
                             VStr (Difficulty_name difficulty))]
                else VDict []) ] |}.

Definition daily_payload : request :=
  {| operationName := "daily"; variables := VNone |}.

Definition search_payload (text : string) : request :=
  {| operationName := "problemsetQuestionList";
     variables :=
       VDict [ ("categorySlug", VStr "");
               ("skip", VInt 0);
               ("limit", VInt 1);
               ("filters", VDict [("searchKeywords", VStr text)]) ] |}.

Definition question_info_payload (question_title_slug : string)
  : request :=
  {| operationName := "questionInfo";
     variables := VDict [("titleSlug", VStr question_title_slug)] |}.

Definition user_stats_payload (leetcode_id : string) : request :=
  {| operationName := "getProblemsSolvedAndRank";
     variables := VDict [("username", VStr leetcode_id)] |}.

Section Client.

Context {ext : Externals}.

Definition fetch_random_question (client_session : session)
  (difficulty : Difficulty) : M value :=
  let payload := random_question_payload difficulty in
  response <- post client_session payload ;;
  if negb (status response =? 200) then
    emit (LogStatus "fetch_random_question" (status response)) ;;
    ret VNone
  else
    response_data <- lift (json response) ;;
    try_except
      (lift (getpath response_data ["data"; "randomQuestion"; "titleSlug"]))
      ValueError
      (emit (LogDecode "fetch_random_question" response_data) ;;
       ret VNone).

Definition fetch_daily_question (client_session : session) : M value :=
  let data := daily_payload in
  response <- post client_session data ;;
  if negb (status response =? 200) then
    emit (LogStatus "fetch_daily_question" (status response)) ;;
    ret VNone
  else
    response_data <- lift (json response) ;;
    try_except
      (lift (getpath response_data
               ["data"; "challenge"; "question"; "titleSlug"]))
      ValueError
      (emit (LogDecode "fetch_daily_question" response_data) ;;
       ret VNone).

(** The body of the [try] of [search_question]; its [return] yields
    [None]. *)
Definition first_match (response_data : value) : result value :=
  let? questions_matched_list :=
    getpath response_data ["data"; "problemsetQuestionList"] in
  if negb (truthy questions_matched_list) then Ok VNone
  else
    let? questions := getitem questions_matched_list "questions" in
    let? first := getitem0 questions in
    getitem first "titleSlug".

Definition search_question (client_session : session) (text : string)
  : M value :=
  let payload := search_payload text in
  response <- post client_session payload ;;
  if negb (status response =? 200) then
    emit (LogStatus "search_question" (status response)) ;;
    ret VNone
  else
    response_data <- lift (json response) ;;
    try_except
      (lift (first_match response_data))
      ValueError
      (emit (LogDecode "search_question" response_data) ;;
       ret VNone).

(** The names bound by the [try] of [fetch_question_info]. *)
Record question_fields : Type := {
  f_question_id : value;
  f_difficulty : value;
  f_title : value;
  f_is_paid_only : value;
  f_content : value;
  f_link : string;
  f_total_accepted : value;
  f_total_submission : value;
  f_ac_rate : value
}.

Definition read_question (question_title_slug : string)
  (response_data : value) : result question_fields :=
  let? question := getpath response_data ["data"; "question"] in
  let? question_id := getitem question "questionFrontendId" in
  let? difficulty := getitem question "difficulty" in
  let? title := getitem question "title" in
  let? is_paid_only := getitem question "isPaidOnly" in
  let? content :=
    if negb (truthy is_paid_only) then getitem question "content"
    else Ok (VStr "") in
  let link := "https://leetcode.com/problems/" ++ question_title_slug in
  let? raw_stats := getitem question "stats" in
  let? stats := literal_eval raw_stats in
  let? total_accepted := getitem stats "totalAccepted" in
  let? total_submission := getitem stats "totalSubmission" in
  let? ac_rate := getitem stats "acRate" in
  Ok {| f_question_id := question_id;
        f_difficulty := difficulty;
        f_title := title;
        f_is_paid_only := is_paid_only;
        f_content := content;
        f_link := link;
        f_total_accepted := total_accepted;
        f_total_submission := total_submission;
        f_ac_rate := ac_rate |}.

(** The statements of [fetch_question_info] behind its [try]. *)
Definition build_question_info (q : question_fields)
  : result (option QuestionInfo) :=
  let? question_rating :=
    if negb (truthy (f_is_paid_only q)) then
      let? rating := fetch_rating (f_title q) in
      if truthy rating then
        let? r := int_of rating in Ok (Some r)
      else Ok None
    else Ok None in
  let? parsed :=
    match f_content q with
    | VStr content => Ok (parse_content content)
    | _ => Raise AttributeError
    end in
  let '(description, example_one, follow_up) := parsed in
  Ok (Some {| premium := f_is_paid_only q;
              question_id := f_question_id q;
              difficulty := f_difficulty q;
              title := f_title q;
              link := f_link q;
              total_accepted := f_total_accepted q;
              total_submission := f_total_submission q;
              ac_rate := f_ac_rate q;
              question_rating := question_rating;
              description := description;
              example_one := example_one;
              follow_up := follow_up |}).

Definition fetch_question_info (client_session : session)
  (question_title_slug : string) : M (option QuestionInfo) :=
  emit (LogInfo question_title_slug) ;;
  let payload := question_info_payload question_title_slug in
  response <- post client_session payload ;;
  if negb (status response =? 200) then
    emit (LogStatus "fetch_question_info" (status response)) ;;
    ret None
  else
    response_data <- lift (json response) ;;
    try_except
      (q <- lift (read_question question_title_slug response_data) ;;
       ret (Some q))
      ValueError
      (emit (LogDecode "fetch_question_info" response_data) ;;
       ret None)
    >>= (fun fields =>
           match fields with
           | Some q => lift (build_question_info q)
           | None => ret None
           end).

(** [next((item["count"] for item in items if item["difficulty"] == d), 0)]
    once the iteration has started. *)
Fixpoint first_count (items : list value) (d : string) : result value :=
  match items with
  | [] => Ok (VInt 0)
  | item :: rest =>
      let? difficulty := getitem item "difficulty" in
      if eq_str difficulty d then getitem item "count"
      else first_count rest d
  end.

Definition next_count (ac_submission_num : value) (d : string)
  : result value :=
  let? items := Py.iter ac_submission_num in
  first_count items d.

(** The names bound by the [try] of [fetch_problems_solved_and_rank];
    [None] stands for its [return None]. *)
Definition read_user (response_data : value)
  : result (option (value * value * value * value)) :=
  let? matched_user := getpath response_data ["data"; "matchedUser"] in
  if negb (truthy matched_user) then Ok None
  else
    let? real_name := getpath matched_user ["profile"; "realName"] in
    let? submit_stats_global := getitem matched_user "submitStatsGlobal" in
    let? ac_submission_num :=
      getitem submit_stats_global "acSubmissionNum" in
    let? easy_count := next_count ac_submission_num "Easy" in
    let? medium_count := next_count ac_submission_num "Medium" in
    let? hard_count := next_count ac_submission_num "Hard" in
    Ok (Some (real_name, easy_count, medium_count, hard_count)).

Definition build_user_stats (real_name easy_count medium_count
  hard_count : value) : result (option UserStats) :=
  let? s := convert_to_score easy_count medium_count hard_count in
  Ok (Some {| real_name := real_name;
              submissions := {| easy := easy_count;
                                medium := medium_count;
                                hard := hard_count;
                                score := s |} |}).

(** Everything behind the [async with semaphore] block, for a decoded
    200 body. *)
Definition user_stats_of (leetcode_id : string) (response_data : value)
  : M (option UserStats) :=
  try_except
    (u <- lift (read_user response_data) ;; ret (Some u))
    ValueError
    (emit (LogDecode "fetch_problems_solved_and_rank" response_data) ;;
     ret None)
  >>= (fun read =>
         match read with
         | Some (Some (real_name, easy_count, medium_count, hard_count)) =>
             lift (build_user_stats real_name easy_count medium_count
                     hard_count)
         | _ => ret None
         end).

(** The [async with semaphore] block: [Some response_data] when control
    falls out of it (status 200), [None] when the function returned from
    inside it. *)
Definition guarded_request (client_session : session)
  (leetcode_id : string) : M (option value) :=
  let payload := user_stats_payload leetcode_id in
  async_with_semaphore
    (response <- post client_session payload ;;
     let code := status response in
     if code =? 200 then
       response_data <- lift (json response) ;;
       emit Sleep ;;
       ret (Some response_data)
     else if code =? 429 then
       emit ChannelRateLimited ;;
       raise RateLimitReached
     else if code =? 403 then
       emit (LogStatus "fetch_problems_solved_and_rank" code) ;;
       emit ChannelForbidden ;;
       ret None
     else
       emit (LogStatus "fetch_problems_solved_and_rank" code) ;;
       ret None).

(** The function as written, before the decorator is applied. *)
Definition fetch_problems_solved_and_rank_wrapped
  (client_session : session) (leetcode_id : string)
  : M (option UserStats) :=
  guarded <- guarded_request client_session leetcode_id ;;
  match guarded with
  | Some response_data => user_stats_of leetcode_id response_data
  | None => ret None
  end.

(** [backoff.on_exception(backoff.expo, RateLimitReached, logger=None)]:
    the target is called again whenever it raises [RateLimitReached];
    neither [max_tries] nor [max_time] is given, so it never gives up. The
    k-th wait is drawn below [2 ^ k] seconds. Any other outcome of the
    target is the outcome of the call. [fuel] bounds the number of calls
    of the target; [None] means the bound was hit. *)
Fixpoint on_exception {A} (fuel : nat) (tries : nat) (target : M A)
  (t : trace) : option (result A * trace) :=
  match fuel with
  | O => None
  | S fuel' =>
      match target t with
      | (Raise RateLimitReached, t') =>
          on_exception fuel' (S tries) target
            (t' ++ [Backoff (2 ^ Z.of_nat tries)])%list
      | outcome => Some outcome
      end
  end.

Definition fetch_problems_solved_and_rank (fuel : nat)
  (client_session : session) (leetcode_id : string) (t : trace)
  : option (result (option UserStats) * trace) :=
  on_exception fuel 0
    (fetch_problems_solved_and_rank_wrapped client_session leetcode_id) t.

End Client.
(** ** Concurrent callers

    [semaphore = asyncio.Semaphore(8)] is shared by all calls of
    [fetch_problems_solved_and_rank]. The calls of concurrent callers are
    tasks of one event loop: each task does, in their order, the events
    that the function above leaves in its trace, and the events of
    different tasks interleave. Each caller has a session of its own, so
    that nothing is assumed of the answers concurrent requests get. *)

(** The events of a call as far as [fuel] attempts go: the trace that
    [on_exception] builds, kept also when the attempts run out. *)
Fixpoint attempts {A} (fuel : nat) (tries : nat) (target : M A)
  (t : trace) : trace :=
  match fuel with
  | O => t
  | S fuel' =>
      match target t with
      | (Raise RateLimitReached, t') =>
          attempts fuel' (S tries) target
            (t' ++ [Backoff (2 ^ Z.of_nat tries)])%list
      | (_, t') => t'
      end
  end.

(** A caller: the answers the service gives to its requests, the user it
    asks for, and how many attempts of it are watched. *)
Record caller : Type := {
  caller_session : session;
  caller_id : string;
  caller_attempts : nat
}.

Section Callers.

Context {ext : Externals}.

Definition call_events (c : caller) : trace :=
  attempts (caller_attempts c) 0
    (fetch_problems_solved_and_rank_wrapped (caller_session c)
       (caller_id c))
    [].

End Callers.

Module Gate.

Definition slots : nat := 8.

(** A task: the events it has done, and those it has yet to do. *)
Record task : Type := {
  done : trace;
  todo : trace
}.

Record state : Type := {
  counter : nat;
  tasks : list task
}.

(** What an event needs of the semaphore's counter, and does to it:
    [acquire] returns only when the counter is positive and takes one off
    it, [release] adds one, and nothing else touches it. Which of several
    waiting tasks gets a freed slot is the library's choice; here any of
    them may get it, so that every run of the program is a run of this
    relation. *)
Inductive semaphore_step : event -> nat -> nat -> Prop :=
| sem_acquire v : semaphore_step Acquire (S v) v
| sem_release v : semaphore_step Release v (S v)
| sem_other e v : slot_change e = 0 -> semaphore_step e v v.

(** One task does its next event. *)
Inductive step : event -> state -> state -> Prop :=
| step_task e v v' d rest before after :
    semaphore_step e v v' ->
    step e
      {| counter := v;
         tasks := (before ++ {| done := d; todo := e :: rest |} :: after)%list |}
      {| counter := v';
         tasks := (before ++ {| done := (d ++ [e])%list; todo := rest |}
                     :: after)%list |}.

Definition start (events : trace) : task :=
  {| done := []; todo := events |}.

Definition initial {ext : Externals} (callers : list caller) : state :=
  {| counter := slots;
     tasks := map (fun c => start (call_events c)) callers |}.

Inductive reachable (s0 : state) : state -> Prop :=
| reach_initial : reachable s0 s0
| reach_step e s s' : reachable s0 s -> step e s s' -> reachable s0 s'.

(** A task holds a slot when it has acquired once more than it has
    released. *)
Definition holds_slot (k : task) : bool := 0 <? held (done k).

(** A request is in flight when the last thing its task did was to send
    it. *)
Definition is_in_flight (k : task) : bool :=
  match rev (done k) with
  | Post _ :: _ => true
  | _ => false
  end.

Definition holders (s : state) : nat :=
  List.length (filter holds_slot (tasks s)).

Definition in_flight (s : state) : nat :=
  List.length (filter is_in_flight (tasks s)).

Definition occupancy (k : task) : nat := if holds_slot k then 1 else 0.

(** The same steps as a function: task [i] does its next event, if the
    semaphore lets it. *)
Definition semaphore_fire (e : event) (v : nat) : option nat :=
  match e with
  | Acquire =>
      match v with
      | S v' => Some v'
      | O => None
      end
  | Release => Some (S v)
  | _ => Some v
  end.

Definition fire (i : nat) (s : state) : option state :=
  match nth_error (tasks s) i with
  | Some {| done := d; todo := e :: rest |} =>
      match semaphore_fire e (counter s) with
      | Some v' =>
          Some {| counter := v';
                  tasks := (firstn i (tasks s)
                            ++ {| done := (d ++ [e])%list; todo := rest |}
                               :: skipn (S i) (tasks s))%list |}
      | None => None
      end
  | _ => None
  end.

(** A schedule names, step by step, the task that runs. *)
Fixpoint play (schedule : list nat) (s : state) : option state :=
  match schedule with
  | [] => Some s
  | i :: rest =>
      match fire i s with
      | Some s' => play rest s'
      | None => None
      end
  end.

End Gate.

(** ** Display units

    [discord.Embed] is a holder of what it is given: the arguments of its
    constructor, the fields in the order [add_field] was called, and the
    text of [set_footer]. *)

Module Discord.

(** [discord.Colour.green()] and the like. *)
Inductive Colour : Set := green | orange | red | blue.

Record Field : Type := {
  field_name : string;
  field_value : value;
  field_inline : bool
}.

Record Embed : Type := {
  embed_title : string;
  embed_description : option string;
  embed_url : option string;
  embed_colour : Colour;
  embed_fields : list Field;
  embed_footer : option string
}.

Definition add_field (e : Embed) (name : string) (v : value)
  (inline : bool) : Embed :=
  {| embed_title := embed_title e;
     embed_description := embed_description e;
     embed_url := embed_url e;
     embed_colour := embed_colour e;
     embed_fields :=
       (embed_fields e
        ++ [{| field_name := name; field_value := v;
               field_inline := inline |}])%list;
     embed_footer := embed_footer e |}.

Definition set_footer (e : Embed) (text : string) : Embed :=
  {| embed_title := embed_title e;
     embed_description := embed_description e;
     embed_url := embed_url e;
     embed_colour := embed_colour e;
     embed_fields := embed_fields e;
     embed_footer := Some text |}.

End Discord.

Import Discord.

(** The text an f-string puts in for a Python object: [str] of it. It is
    a built-in, taken as it is; for a string it is the string itself. *)
Class Formatting : Type := {
  str_of : value -> string;
  str_of_str : forall s, str_of (VStr s) = s
}.

(** ** [ui/embeds/problems.py] *)

(** What the module hands to the caller: an embed it built, or the embed
    of [failure_embed] of [ui.embeds.common], which is not among the
    sources and is kept by its title. *)
Inductive display : Type :=
| Shown (e : Embed)
| Failure (title : string).

(** Lists and dictionaries cannot be keys: looking one up in a [dict]
    raises [TypeError]. *)
Definition hashable (v : value) : bool :=
  match v with
  | VList _ | VDict _ => false
  | _ => true
  end.

(** [colour_dict[d] if d in colour_dict else discord.Colour.blue()]. *)
Definition colour_of (d : value) : result Colour :=
  if hashable d then
    Ok (if eq_str d "Easy" then green
        else if eq_str d "Medium" then orange
        else if eq_str d "Hard" then red
        else blue)
  else Raise TypeError.

Definition question_error_embed : display :=
  Failure
    "There was a problem retrieving the question. Please try again later.".

Section Rendering.

Context {fmt : Formatting}.

Definition premium_question_embed (question_id title : value)
  (link : string) (colour : Colour) : Embed :=
  {| embed_title := str_of question_id ++ ". " ++ str_of title;
     embed_description := Some "Premium Question";
     embed_url := Some link;
     embed_colour := colour;
     embed_fields := [];
     embed_footer := None |}.

(** [question_embed] from the point where [fetch_question_info] has
    answered with [info]. *)
Definition question_embed (info : option QuestionInfo) : result display :=
  match info with
  | None => Ok question_error_embed
  | Some info =>
      let? colour := colour_of (difficulty info) in
      if truthy (premium info) then
        Ok (Shown (premium_question_embed (question_id info) (title info)
                     (link info) colour))
      else
        let embed :=
          {| embed_title :=
               str_of (question_id info) ++ ". " ++ str_of (title info);
             embed_description := Some (description info);
             embed_url := Some (link info);
             embed_colour := colour;
             embed_fields := [];
             embed_footer := None |} in
        let embed :=
          add_field embed "Example 1: " (VStr (example_one info)) false in
        let embed :=
          match follow_up info with
          | Some text =>
              if truthy (VStr text)
              then add_field embed "Follow up: " (VStr text) false
              else embed
          | None => embed
          end in
        let embed :=
          add_field embed "Difficulty: " (difficulty info) true in
        let embed :=
          match question_rating info with
          | Some rating =>
              add_field embed "Zerotrac Rating: "
                (VStr ("||" ++ str_of (VInt rating) ++ "||")) true
          | None => embed
          end in
        let embed :=
          set_footer embed
            ("Accepted: " ++ str_of (total_accepted info)
             ++ "  |  Submissions: " ++ str_of (total_submission info)
             ++ "  |  Acceptance Rate: " ++ str_of (ac_rate info)) in
        Ok (Shown embed)
  end.

End Rendering.

(** ** [cogs/questions.py]

    The two commands of the cog, [daily] and [question]. What a command
    does is the list of its requests and of the messages it sends through
    [interaction.response.send_message], and whether it returns or
    raises. *)

Module Cog.

Inductive action : Type :=
| HttpGet (url : string)
| HttpPost (url : string) (operation : string)
| SendEmbed (e : Embed)
| SendText (text : string) (ephemeral : bool).

Definition is_send (a : action) : bool :=
  match a with
  | SendEmbed _ | SendText _ _ => true
  | _ => false
  end.

(** What the outside gives to one run of a command: the answer to
    [requests.get] of the problem list, the [url] attribute of the answer
    to [session.get] of the random question, the body of the answer to
    the daily query, and the number [random.choice] draws. *)
Record world : Type := {
  all_problems : response;
  random_one : value;
  daily_answer : result value;
  draw : nat
}.

Definition all_url : string := "https://leetcode.com/api/problems/all/".

Definition random_url : string :=
  "https://leetcode.com/problems/random-one-question/all".

Definition graphql_url : string := "https://leetcode.com/graphql".

(** The levels the command compares with: the literals 1, 2 and 3. *)
Inductive Level : Set := level1 | level2 | level3.

Definition level_int (l : Level) : Z :=
  match l with level1 => 1 | level2 => 2 | level3 => 3 end.

Definition level_float (l : Level) : float :=
  match l with
  | level1 => 1%float
  | level2 => 2%float
  | level3 => 3%float
  end.

(** [obj == l] for one of these literals. *)
Definition eq_level (obj : value) (l : Level) : bool :=
  match obj with
  | VInt z => z =? level_int l
  | VBool b => (if b then 1 else 0) =? level_int l
  | VFloat f => PrimFloat.eqb f (level_float l)
  | _ => false
  end.

(** [[question for question in pairs
      if question['difficulty']['level'] == l]]. *)
Fixpoint of_level (l : Level) (pairs : list value) : result (list value) :=
  match pairs with
  | [] => Ok []
  | question :: rest =>
      let? level := getpath question ["difficulty"; "level"] in
      let? tail := of_level l rest in
      Ok (if eq_level level l then question :: tail else tail)
  end.

(** [random.choice(seq)] with the number it draws. *)
Definition choice (drawn : nat) (seq : list value) : result value :=
  match seq with
  | [] => Raise IndexError
  | x :: _ => Ok (nth (drawn mod List.length seq) seq x)
  end.

Definition apology : string :=
  "An error occurred while trying to get the question from LeetCode.".

Definition hint : string :=
  "Please enter a valid difficulty level. (easy, medium, hard, random)".

Section Commands.

Context {fmt : Formatting}.

(** One of the three branches of [question] that ask for a level; they
    differ in the level, the colour and the name of the first field. *)
Definition level_embed (w : world) (l : Level) (colour : Colour)
  (name : string) : result Embed :=
  let? data := json (all_problems w) in
  let? pairs := getitem data "stat_status_pairs" in
  let? all := Py.iter pairs in
  let? candidates := of_level l all in
  let? question := choice (draw w) candidates in
  let? title := getpath question ["stat"; "question__title"] in
  let? slug := getpath question ["stat"; "question__title_slug"] in
  let link := "https://leetcode.com/problems/" ++ str_of slug ++ "/" in
  let embed :=
    {| embed_title := "LeetCode Question";
       embed_description := None;
       embed_url := None;
       embed_colour := colour;
       embed_fields := [];
       embed_footer := None |} in
  let embed := add_field embed name title false in
  let embed := add_field embed "Link" (VStr link) false in
  Ok embed.

Definition level_question (w : world) (l : Level) (colour : Colour)
  (name : string) : result unit * list action :=
  if status (all_problems w) =? 200 then
    match level_embed w l colour name with
    | Ok embed => (Ok tt, [HttpGet all_url; SendEmbed embed])
    | Raise e => (Raise e, [HttpGet all_url])
    end
  else (Ok tt, [HttpGet all_url; SendText apology false]).

Definition question (w : world) (difficulty : string)
  : result unit * list action :=
  if String.eqb difficulty "easy" then
    level_question w level1 green "Easy"
  else if String.eqb difficulty "medium" then
    level_question w level2 orange "Medium"
  else if String.eqb difficulty "hard" then
    level_question w level3 red "Hard"
  else if String.eqb difficulty "random" then
    let embed :=
      {| embed_title := "Random Question";
         embed_description := None;
         embed_url := None;
         embed_colour := green;
         embed_fields := [];
         embed_footer := None |} in
    let embed := add_field embed "URL" (random_one w) false in
    (Ok tt, [HttpGet random_url; SendEmbed embed])
  else (Ok tt, [SendText hint true]).

Definition daily_embed (w : world) : result Embed :=
  let? response_data := daily_answer w in
  let? link := getpath response_data ["data"; "challenge"; "link"] in
  let? title :=
    getpath response_data ["data"; "challenge"; "question"; "title"] in
  let? difficulty :=
    getpath response_data
      ["data"; "challenge"; "question"; "difficulty"] in
  let link := "https://leetcode.com" ++ str_of link in
  let embed :=
    {| embed_title := "Daily Problem: " ++ str_of title;
       embed_description := None;
       embed_url := None;
       embed_colour := blue;
       embed_fields := [];
       embed_footer := None |} in
  let embed :=
    add_field embed "**Difficulty**" (VStr (str_of difficulty)) true in
  let embed := add_field embed "**Link**" (VStr link) false in
  Ok embed.

Definition daily (w : world) : result unit * list action :=
  match daily_embed w with
  | Ok embed => (Ok tt, [HttpPost graphql_url "daily"; SendEmbed embed])
  | Raise e => (Raise e, [HttpPost graphql_url "daily"])
  end.

End Commands.

End Cog.

(** ** Stand-ins for tests *)

(** A session that gives the same answer to every request. *)
Definition answering (r : response) : session := fun _ _ => r.

(** A session that plays a script of answers, then answers 500. *)
Definition scripted (answers : list response) : session :=
  fun n _ => nth n answers {| status := 500; json := Raise ValueError |}.

Definition ok200 (body : value) : response :=
  {| status := 200; json := Ok body |}.

Definition bare (code : Z) : response :=
  {| status := code; json := Raise ValueError |}.

(** Collaborators for tests: a converter that leaves its input as it is,
    an empty rating table, and a score that is the plain sum of integer
    counts. *)
Definition sum_score (easy medium hard : value) : result value :=
  match easy, medium, hard with
  | VInt e, VInt m, VInt h => Ok (VInt (e + m + h))
  | _, _, _ => Raise TypeError
  end.

(** A table for [literal_eval]. The Python literal below denotes the
    dictionary [sample_stats]. The bare name [oops] parses as an
    expression that is no literal, and an object that is no text cannot be
    parsed at all: [ast.literal_eval] raises [ValueError] on both. Text
    outside the table, such as an unbalanced brace, is taken not to parse,
    which is a [SyntaxError]. *)
Definition sample_stats_text : string :=
  "{'totalAccepted': '1', 'totalSubmission': '2', 'acRate': '50%'}".

Definition sample_stats : value :=
  VDict [ ("totalAccepted", VStr "1");
          ("totalSubmission", VStr "2");
          ("acRate", VStr "50%") ].

Definition plain_externals : Externals.
Proof.
  refine {| markdownify := fun html => html;
            literal_eval := fun v =>
              match v with
              | VStr text =>
                  if String.eqb text sample_stats_text then Ok sample_stats
                  else if String.eqb text "oops" then Raise ValueError
                  else Raise SyntaxError
              | _ => Raise ValueError
              end;
            fetch_rating := fun _ => Ok VNone;
            int_of := fun _ => Raise TypeError;
            convert_to_score := sum_score |}.
  intros [] [] []; discriminate.
Defined.

(** Sample inputs. *)

Definition short_content : string := "Add two numbers.".

Definition long_content : string :=
  "<p>Given two integers a and b, return the sum of the two.</p>".

(** [{"data": {"problemsetQuestionList": {"questions": []}}}] *)
Definition no_match_body : value :=
  VDict [("data",
          VDict [("problemsetQuestionList",
                  VDict [("questions", VList [])])])].

(** An item of [acSubmissionNum]. *)
Definition solved (d : string) (n : Z) : value :=
  VDict [("difficulty", VStr d); ("count", VInt n)].

(** A user-stats body whose list has no entry for Hard, and the record
    the client builds from it. *)
Definition stats_items : list value :=
  [solved "All" 7; solved "Easy" 4; solved "Medium" 3].

Definition stats_body : value :=
  VDict [("data",
          VDict [("matchedUser",
                  VDict [("profile", VDict [("realName", VStr "Ada")]);
                         ("submitStatsGlobal",
                          VDict [("acSubmissionNum",
                                  VList stats_items)])])])].

Definition ada_stats : UserStats :=
  {| real_name := VStr "Ada";
     submissions := {| easy := VInt 4;
                       medium := VInt 3;
                       hard := VInt 0;
                       score := VInt 7 |} |}.

(** A question-info body for a paid-only question; the service withholds
    the content. *)
Definition paid_question : value :=
  VDict [("questionFrontendId", VStr "156");
         ("title", VStr "Binary Tree Upside Down");
         ("difficulty", VStr "Medium");
         ("content", VNone);
         ("stats", VStr sample_stats_text);
         ("isPaidOnly", VBool true)].

Definition paid_body : value :=
  VDict [("data", VDict [("question", paid_question)])].

(** The record the client builds from it. *)
Definition paid_info : QuestionInfo :=
  {| premium := VBool true;
     question_id := VStr "156";
     difficulty := VStr "Medium";
     title := VStr "Binary Tree Upside Down";
     link := "https://leetcode.com/problems/binary-tree-upside-down";
     total_accepted := VStr "1";
     total_submission := VStr "2";
     ac_rate := VStr "50%";
     question_rating := None;
     description := "";
     example_one := "";
     follow_up := None |}.

(** ** Vocabulary of the statements *)

Open Scope list_scope.

(** A result that is not the module's own exception. *)
Definition builtin {A} (r : result A) : Prop := r <> Raise RateLimitReached.

(** The trace once a call has taken a slot and sent its request. *)
Definition entered (id : string) (t : trace) : trace :=
  t ++ [Acquire; Post (user_stats_payload id)].

(** The trace of [n] rate-limited rounds, the first of which is followed
    by wait number [k]. *)
Fixpoint rounds (id : string) (k n : nat) : trace :=
  match n with
  | O => []
  | S n' =>
      [Acquire; Post (user_stats_payload id); ChannelRateLimited; Release;
       Backoff (2 ^ Z.of_nat k)] ++ rounds id (S k) n'
  end.

Definition nl : ascii := "010"%char.

Definition starts_with_newline (s : string) : bool :=
  match s with
  | String c _ => Ascii.eqb c nl
  | EmptyString => false
  end.

Definition two_newlines : string := String nl (String nl EmptyString).


(** Whether an item of [acSubmissionNum] has the difficulty [d], and
    whether no item of a list has it. *)
Definition has_difficulty (d : string) (item : value) : bool :=
  match getitem item "difficulty" with
  | Ok v => eq_str v d
  | Raise _ => false
  end.

Definition lacks (items : list value) (d : string) : bool :=
  forallb (fun item => negb (has_difficulty d item)) items.

(** The last substitution of the list. *)
Definition nbsp_to_space : Re.pattern := Re.literal "&nbsp;" " ".

(** Neither an ampersand nor a space. *)
Definition plain_char (c : ascii) : bool :=
  negb (Ascii.eqb "&"%char c) && negb (Ascii.eqb " "%char c).

Fixpoint plain_text (w : string) : bool :=
  match w with
  | EmptyString => true
  | String c w' => plain_char c && plain_text w'
  end.

(** A [<pre>] block with two blank lines in it. *)
Definition blank_lines_html : string :=
  ("<pre>a" ++ newline ++ newline ++ newline ++ "b</pre>")%string.

(** An item of [acSubmissionNum] with both of its keys. *)
Definition is_entry (item : value) : bool :=
  match getitem item "difficulty", getitem item "count" with
  | Ok _, Ok _ => true
  | _, _ => false
  end.

(** More sample bodies: the daily question, and a search with one
    match. *)
Definition daily_body : value :=
  VDict [("data",
          VDict [("challenge",
                  VDict [("question",
                          VDict [("titleSlug", VStr "two-sum")])])])].

Definition search_hit : value := VDict [("titleSlug", VStr "two-sum")].

Definition search_found : value := VDict [("questions", VList [search_hit])].

Definition search_body : value :=
  VDict [("data", VDict [("problemsetQuestionList", search_found)])].

Definition nobody_body : value :=
  VDict [("data", VDict [("matchedUser", VNone)])].

(** A question that is free to read, with its two examples and a
    follow-up, and what the plain collaborators make of it. *)
Definition free_content : string :=
  ("<p>Add.</p>" ++ example_one_marker ++ "<pre>1+1</pre>"
   ++ example_two_marker ++ "<pre>2+2</pre>"
   ++ "<p>" ++ follow_up_marker ++ "Faster?</p>")%string.

Definition free_question : value :=
  VDict [("questionFrontendId", VStr "1");
         ("title", VStr "Two Sum");
         ("difficulty", VStr "Easy");
         ("content", VStr free_content);
         ("stats", VStr sample_stats_text);
         ("isPaidOnly", VBool false)].

Definition free_body : value :=
  VDict [("data", VDict [("question", free_question)])].

Definition free_info : QuestionInfo :=
  {| premium := VBool false;
     question_id := VStr "1";
     difficulty := VStr "Easy";
     title := VStr "Two Sum";
     link := "https://leetcode.com/problems/two-sum";
     total_accepted := VStr "1";
     total_submission := VStr "2";
     ac_rate := VStr "50%";
     question_rating := None;
     description := "<p>Add.</p>";
     example_one := "<pre>1+1</pre>";
     follow_up := Some "Faster?</p>" |}.

(** The same question with statistics that are no Python literal: a bare
    name, for which [ast.literal_eval] raises [ValueError]. *)
Definition broken_stats_question : value :=
  VDict [("questionFrontendId", VStr "1");
         ("title", VStr "Two Sum");
         ("difficulty", VStr "Easy");
         ("content", VStr free_content);
         ("stats", VStr "oops");
         ("isPaidOnly", VBool false)].

Definition broken_stats_body : value :=
  VDict [("data", VDict [("question", broken_stats_question)])].

(** A run of [n] newlines. *)
Fixpoint newlines (n : nat) : string :=
  match n with
  | O => EmptyString
  | S n' => String nl (newlines n')
  end.

(** Text in which no tag and no entity can start. *)
Definition markup_char (c : ascii) : bool :=
  Ascii.eqb "<"%char c || Ascii.eqb "&"%char c.

Fixpoint markup_free (s : string) : bool :=
  match s with
  | EmptyString => true
  | String c s' => negb (markup_char c) && markup_free s'
  end.

(** A pattern that can only match at a character that starts markup. *)
Definition needs_markup (p : Re.pattern) : Prop :=
  forall c s, markup_char c = false -> p (String c s) = None.

(** Formatting for tests: strings as they are, [None] by its name. *)
Definition plain_formatting : Formatting.
Proof.
  refine {| str_of := fun v =>
              match v with
              | VStr s => s
              | VNone => "None"
              | _ => "?"
              end |}.
  reflexivity.
Defined.

(** Whether a record has a follow-up to show. *)
Definition has_follow_up (info : QuestionInfo) : bool :=
  match follow_up info with
  | Some text => truthy (VStr text)
  | None => false
  end.

Definition has_rating (info : QuestionInfo) : bool :=
  match question_rating info with
  | Some _ => true
  | None => false
  end.

(** The level a name of the [question] command asks for. *)
Definition asked (difficulty : string) : option Cog.Level :=
  if String.eqb difficulty "easy" then Some Cog.level1
  else if String.eqb difficulty "medium" then Some Cog.level2
  else if String.eqb difficulty "hard" then Some Cog.level3
  else None.

Definition sends (actions : list Cog.action) : nat :=
  List.length (filter Cog.is_send actions).

(** An entry of the problem list, and a list with one medium question
    between two easy ones. *)
Definition problem (name slug : string) (level : Z) : value :=
  VDict [("stat", VDict [("question__title", VStr name);
                         ("question__title_slug", VStr slug)]);
         ("difficulty", VDict [("level", VInt level)])].

Definition problem_list : value :=
  VDict [("stat_status_pairs",
          VList [problem "Two Sum" "two-sum" 1;
                 problem "Add Two Numbers" "add-two-numbers" 2;
                 problem "Palindrome Number" "palindrome-number" 1])].

Definition sample_world : Cog.world :=
  {| Cog.all_problems := ok200 problem_list;
     Cog.random_one := VStr "https://leetcode.com/problems/two-sum/";
     Cog.daily_answer := Raise ValueError;
     Cog.draw := 5 |}.

Definition down_world : Cog.world :=
  {| Cog.all_problems := bare 503;
     Cog.random_one := VNone;
     Cog.daily_answer := Raise ValueError;
     Cog.draw := 0 |}.

(** The embeds made of the two sample records. *)
Definition paid_embed : Embed :=
  @premium_question_embed plain_formatting (VStr "156")
    (VStr "Binary Tree Upside Down")
    "https://leetcode.com/problems/binary-tree-upside-down" orange.

Definition free_embed : Embed :=
  {| embed_title := "1. Two Sum";
     embed_description := Some "<p>Add.</p>";
     embed_url := Some "https://leetcode.com/problems/two-sum";
     embed_colour := green;
     embed_fields :=
       [{| field_name := "Example 1: ";
           field_value := VStr "<pre>1+1</pre>";
           field_inline := false |};
        {| field_name := "Follow up: ";
           field_value := VStr "Faster?</p>";
           field_inline := false |};
        {| field_name := "Difficulty: ";
           field_value := VStr "Easy";
           field_inline := true |}];
     embed_footer :=
       Some "Accepted: 1  |  Submissions: 2  |  Acceptance Rate: 50%" |}.

(** What [question] shows in the sample world for "easy": the draw 5
    picks the second of the two easy questions. *)
Definition easy_embed : Embed :=
  {| embed_title := "LeetCode Question";
     embed_description := None;
     embed_url := None;
     embed_colour := green;
     embed_fields :=
       [{| field_name := "Easy";
           field_value := VStr "Palindrome Number";
           field_inline := false |};
        {| field_name := "Link";
           field_value :=
             VStr "https://leetcode.com/problems/palindrome-number/";
           field_inline := false |}];
     embed_footer := None |}.

(** The discipline of the [async with semaphore] block, read off a trace:
    no slot is taken while one is held, none is given back that is not
    held, and a request is sent only while a slot is held. [inside] tells
    whether a slot is held where the trace starts; the result tells
    whether one is held where it ends, and is [None] when the discipline
    is broken. *)
Fixpoint brackets (inside : bool) (es : trace) : option bool :=
  match es with
  | [] => Some inside
  | Acquire :: rest => if inside then None else brackets true rest
  | Release :: rest => if inside then brackets false rest else None
  | Post _ :: rest => if inside then brackets true rest else None
  | _ :: rest => brackets inside rest
  end.

(** A task that keeps the discipline from its first event to its last. *)
Definition well_bracketed (k : Gate.task) : Prop :=
  exists b,
    brackets false (Gate.done k) = Some b
    /\ brackets b (Gate.todo k) = Some false.

(** Nine callers whose requests are all answered with a 200; the first
    eight take a slot and send their request, one after the other. *)
Definition nine_callers : list caller :=
  repeat {| caller_session := answering (ok200 stats_body);
            caller_id := "ada";
            caller_attempts := 1 |} 9.

Definition eight_enter : list nat := flat_map (fun i => [i; i]) (seq 0 8).

Definition gate_full : Gate.state :=
  {| Gate.counter := 0;
     Gate.tasks :=
       repeat {| Gate.done := [Acquire; Post (user_stats_payload "ada")];
                 Gate.todo := [Sleep; Release] |} 8
       ++ [Gate.start [Acquire; Post (user_stats_payload "ada"); Sleep;
                       Release]] |}.

(** * Properties *)

(** ** Traces *)

Lemma posts_app (a b : trace) : posts (a ++ b) = (posts a + posts b)%nat.
Proof. unfold posts. rewrite filter_app, length_app. reflexivity. Qed.

Lemma posts_snoc_other (t : trace) (e : event) :
  is_post e = false -> posts (t ++ [e]) = posts t.
Proof.
  intros He. rewrite posts_app. unfold posts at 2. simpl. rewrite He.
  simpl. lia.
Qed.

Lemma posts_snoc_post (t : trace) (p : request) :
  posts (t ++ [Post p]) = S (posts t).
Proof. rewrite posts_app. unfold posts at 2. simpl. lia. Qed.

(** ** Responses of the wrong shape *)

Section Shapes.

Context {ext : Externals}.

(** Subscripting raises [KeyError], [TypeError] or [IndexError], never the
    [ValueError] the handlers wait for. *)
Lemma getitem_raises (obj : value) (k : string) (e : exn) :
  getitem obj k = Raise e -> e = KeyError \/ e = TypeError.
Proof.
  destruct obj; simpl; try (intros [= <-]; now right).
  destruct (dict_get items k); [discriminate|].
  intros [= <-]. now left.
Qed.

Lemma getpath_raises (keys : list string) :
  forall (obj : value) (e : exn),
    getpath obj keys = Raise e -> e = KeyError \/ e = TypeError.
Proof.
  induction keys as [|k keys IH]; simpl; intros obj e Hraise.
  - discriminate.
  - destruct (getitem obj k) as [inner|e'] eqn:Hget; simpl in Hraise.
    + exact (IH inner e Hraise).
    + injection Hraise as ->. exact (getitem_raises obj k e Hget).
Qed.

(** So on a 200 answer the outcome of [fetch_random_question] is the
    outcome of the subscript chain, raised or returned, and the handler of
    its [try] is never entered. The same holds for
    [fetch_daily_question]. *)
Lemma fetch_random_question_200 :
  forall (client_session : session) (difficulty : Difficulty) (t : trace)
         (response_data : value),
    client_session (posts t) (random_question_payload difficulty)
      = ok200 response_data ->
    fetch_random_question client_session difficulty t
    = (getpath response_data ["data"; "randomQuestion"; "titleSlug"],
       t ++ [Post (random_question_payload difficulty)]).
Proof.
  intros cs d t rd Hresp.
  unfold fetch_random_question, mbind, post, try_except, lift.
  rewrite Hresp. cbn [status json ok200 Z.eqb Pos.eqb negb].
  destruct (getpath rd ["data"; "randomQuestion"; "titleSlug"])
    as [v|e] eqn:Hpath; [reflexivity|].
  destruct (getpath_raises _ _ _ Hpath) as [-> | ->]; reflexivity.
Qed.

Lemma fetch_daily_question_200 :
  forall (client_session : session) (t : trace) (response_data : value),
    client_session (posts t) daily_payload = ok200 response_data ->
    fetch_daily_question client_session t
    = (getpath response_data ["data"; "challenge"; "question"; "titleSlug"],
       t ++ [Post daily_payload]).
Proof.
  intros cs t rd Hresp.
  unfold fetch_daily_question, mbind, post, try_except, lift.
  rewrite Hresp. cbn [status json ok200 Z.eqb Pos.eqb negb].
  destruct (getpath rd ["data"; "challenge"; "question"; "titleSlug"])
    as [v|e] eqn:Hpath; [reflexivity|].
  destruct (getpath_raises _ _ _ Hpath) as [-> | ->]; reflexivity.
Qed.

(** A body whose [data] is null makes them raise [TypeError]. *)
Example null_data_raises_type_error :
  fetch_daily_question (answering (ok200 (VDict [("data", VNone)]))) []
  = (Raise TypeError, [Post daily_payload]).
Proof. reflexivity. Qed.

(** C1, at a failing input. A 200 response whose body is the empty object
    has none of the expected fields. Each of the five operations then
    raises [KeyError] to its caller, and no failure is logged: the only
    class its [try] catches is [ValueError]. *)
Theorem malformed_body_raises :
  forall (difficulty : Difficulty) (text slug id : string) (fuel : nat),
    let s := answering (ok200 (VDict [])) in
    fetch_random_question s difficulty []
      = (Raise KeyError, [Post (random_question_payload difficulty)])
    /\ fetch_daily_question s [] = (Raise KeyError, [Post daily_payload])
    /\ search_question s text []
       = (Raise KeyError, [Post (search_payload text)])
    /\ fetch_question_info s slug []
       = (Raise KeyError, [LogInfo slug; Post (question_info_payload slug)])
    /\ fetch_problems_solved_and_rank (S fuel) s id []
       = Some (Raise KeyError,
               [Acquire; Post (user_stats_payload id); Sleep; Release]).
Proof. intros. repeat split; reflexivity. Qed.

(** C2, at a failing input. When the list of questions in the answer is
    empty, [search_question] does not return [None]: taking element 0
    raises [IndexError], which reaches the caller. *)
Theorem search_question_empty_list_raises :
  forall text : string,
    search_question (answering (ok200 no_match_body)) text []
    = (Raise IndexError, [Post (search_payload text)]).
Proof. reflexivity. Qed.

(** The part of C2 the code does honour: the slug of the first question
    of a non-empty list is returned. *)
Lemma search_question_first_match :
  forall (client_session : session) (text : string) (t : trace)
         (response_data found first slug : value) (others : list value),
    client_session (posts t) (search_payload text) = ok200 response_data ->
    getpath response_data ["data"; "problemsetQuestionList"] = Ok found ->
    getitem found "questions" = Ok (VList (first :: others)) ->
    getitem first "titleSlug" = Ok slug ->
    search_question client_session text t
    = (Ok slug, t ++ [Post (search_payload text)]).
Proof.
  intros cs text t rd found first slug others Hresp Hfound Hqs Hslug.
  unfold search_question, mbind, post, try_except, lift. rewrite Hresp.
  simpl. unfold first_match. rewrite Hfound. simpl.
  assert (Htruthy : truthy found = true).
  { destruct found; simpl in Hqs; try discriminate.
    destruct items; [discriminate | reflexivity]. }
  rewrite Htruthy. simpl. rewrite Hqs. simpl. rewrite Hslug. reflexivity.
Qed.

End Shapes.

(** ** Splitting a question's content *)

Section Sections.

Context {ext : Externals}.

(** Without the first marker [find] gives -1, which the slices take as an
    index counted from the end. *)
Lemma parse_content_no_example_marker :
  forall content : string,
    Py.find content example_one_marker = -1 ->
    parse_content content
    = (html_to_markdown (Py.slice content None (Some (-1))),
       html_to_markdown
         (Py.slice content (Some 49)
            (Some (Py.find content example_two_marker))),
       snd (parse_content content)).
Proof.
  intros content Hfind. unfold parse_content. rewrite Hfind. reflexivity.
Qed.

(** C3, at two failing inputs, neither of which contains the marker of
    example 1. The description is computed from the content without its
    last character, not from the full content; and for a content longer
    than 50 characters [example_one] is computed from the characters from
    index 49 on, not from the empty string. *)
Theorem parse_content_without_marker_drops_last_character :
  contains example_one_marker short_content = false
  /\ contains example_one_marker long_content = false
  /\ parse_content short_content
     = (html_to_markdown "Add two numbers", html_to_markdown "", None)
  /\ parse_content long_content
     = (html_to_markdown
          "<p>Given two integers a and b, return the sum of the two.</p",
        html_to_markdown "the two.</p",
        None).
Proof. repeat split; reflexivity. Qed.

End Sections.

(** With a converter that leaves text alone the difference shows in the
    result itself. *)
Example parse_content_plain :
  @parse_content plain_externals short_content = ("Add two numbers", "", None)
  /\ @html_to_markdown plain_externals short_content = "Add two numbers.".
Proof. split; reflexivity. Qed.

(** ** Question info *)

Section Questions.

Context {ext : Externals}.





End Questions.

(** A paid-only answer for which [fetch_question_info] does return a
    record. *)
Example run_paid_only_question :
  @fetch_question_info plain_externals (answering (ok200 paid_body))
    "binary-tree-upside-down" []
  = (Ok (Some paid_info),
     [LogInfo "binary-tree-upside-down";
      Post (question_info_payload "binary-tree-upside-down")]).
Proof. reflexivity. Qed.


(** ** User statistics *)

Section Stats.

Context {ext : Externals}.

(** *** Exceptions of the built-ins

    Subscripting and iteration raise built-in exceptions only, never the
    module's [RateLimitReached]. *)


Lemma builtin_bind {A B} (r : result A) (k : A -> result B) :
  builtin r -> (forall a, builtin (k a)) -> builtin (Py.bind r k).
Proof.
  unfold builtin. intros Hr Hk. destruct r as [a|e]; simpl.
  - apply Hk.
  - intros Heq. apply Hr. injection Heq as ->. reflexivity.
Qed.

Lemma builtin_getitem (obj : value) (k : string) : builtin (getitem obj k).
Proof.
  unfold builtin. destruct obj; simpl; try discriminate.
  destruct (dict_get items k); discriminate.
Qed.

Lemma builtin_getpath (keys : list string) :
  forall obj, builtin (getpath obj keys).
Proof.
  induction keys as [|k keys IH]; intros obj; simpl.
  - discriminate.
  - apply builtin_bind; [apply builtin_getitem | exact IH].
Qed.

Lemma builtin_iter (obj : value) : builtin (Py.iter obj).
Proof. unfold builtin. destruct obj; discriminate. Qed.

Lemma builtin_first_count (d : string) (items : list value) :
  builtin (first_count items d).
Proof.
  induction items as [|item items IH]; simpl.
  - discriminate.
  - apply builtin_bind; [apply builtin_getitem|].
    intros v. destruct (eq_str v d); [apply builtin_getitem | exact IH].
Qed.

Lemma builtin_next_count (obj : value) (d : string) :
  builtin (next_count obj d).
Proof.
  unfold next_count. apply builtin_bind; [apply builtin_iter|].
  intros items. apply builtin_first_count.
Qed.

Lemma builtin_read_user (response_data : value) :
  builtin (read_user response_data).
Proof.
  unfold read_user.
  apply builtin_bind; [apply builtin_getpath | intros matched_user].
  destruct (negb (truthy matched_user)); [discriminate|].
  apply builtin_bind; [apply builtin_getpath | intros real_name].
  apply builtin_bind; [apply builtin_getitem | intros ssg].
  apply builtin_bind; [apply builtin_getitem | intros asn].
  apply builtin_bind; [apply builtin_next_count | intros e].
  apply builtin_bind; [apply builtin_next_count | intros m].
  apply builtin_bind; [apply builtin_next_count | intros h].
  discriminate.
Qed.

Lemma builtin_build_user_stats (real_name e m h : value) :
  builtin (build_user_stats real_name e m h).
Proof.
  unfold build_user_stats.
  apply builtin_bind; [apply convert_to_score_foreign | discriminate].
Qed.

(** Decoding a 200 body never raises [RateLimitReached]. *)
Lemma user_stats_of_not_rate_limited (id : string) (response_data : value)
  (t : trace) :
  builtin (fst (user_stats_of id response_data t)).
Proof.
  unfold user_stats_of, try_except, mbind, lift, ret, emit.
  pose proof (builtin_read_user response_data) as Hread.
  destruct (read_user response_data) as [[[[[rn e] m] h]|]|x]; simpl.
  - apply builtin_build_user_stats.
  - discriminate.
  - destruct x; simpl; try discriminate.
    exfalso. apply Hread. reflexivity.
Qed.

(** *** One call of the undecorated function, by status *)


Lemma wrapped_200 :
  forall (client_session : session) (id : string) (t : trace)
         (response_data : value),
    client_session (posts t) (user_stats_payload id) = ok200 response_data ->
    fetch_problems_solved_and_rank_wrapped client_session id t
    = user_stats_of id response_data (entered id t ++ [Sleep; Release]).
Proof.
  intros cs id t rd Hresp.
  unfold fetch_problems_solved_and_rank_wrapped, guarded_request,
    async_with_semaphore, mbind, post.
  rewrite posts_snoc_other, Hresp by reflexivity. simpl.
  unfold entered. rewrite <- !app_assoc. reflexivity.
Qed.

Lemma wrapped_429 :
  forall (client_session : session) (id : string) (t : trace),
    status (client_session (posts t) (user_stats_payload id)) = 429 ->
    fetch_problems_solved_and_rank_wrapped client_session id t
    = (Raise RateLimitReached,
       entered id t ++ [ChannelRateLimited; Release]).
Proof.
  intros cs id t Hstatus.
  unfold fetch_problems_solved_and_rank_wrapped, guarded_request,
    async_with_semaphore, mbind, post.
  rewrite posts_snoc_other by reflexivity. simpl. rewrite Hstatus. simpl.
  unfold entered. rewrite <- !app_assoc. reflexivity.
Qed.

Lemma wrapped_403 :
  forall (client_session : session) (id : string) (t : trace),
    status (client_session (posts t) (user_stats_payload id)) = 403 ->
    fetch_problems_solved_and_rank_wrapped client_session id t
    = (Ok None,
       entered id t
       ++ [LogStatus "fetch_problems_solved_and_rank" 403;
           ChannelForbidden; Release]).
Proof.
  intros cs id t Hstatus.
  unfold fetch_problems_solved_and_rank_wrapped, guarded_request,
    async_with_semaphore, mbind, post.
  rewrite posts_snoc_other by reflexivity. simpl. rewrite Hstatus. simpl.
  unfold entered. rewrite <- !app_assoc. reflexivity.
Qed.

Lemma posts_entered (id : string) (t : trace) :
  posts (entered id t) = S (posts t).
Proof.
  unfold entered. rewrite posts_app. unfold posts at 2. simpl. lia.
Qed.

(** C6. On status 403 the call logs the status, signals the forbidden
    condition on the channel logger and returns [None]; the decorator does
    not call the function again, so the call has issued exactly one
    request. *)
Theorem forbidden_is_final :
  forall (client_session : session) (id : string) (fuel : nat) (t : trace),
    status (client_session (posts t) (user_stats_payload id)) = 403 ->
    let t' := t ++ [Acquire; Post (user_stats_payload id);
                    LogStatus "fetch_problems_solved_and_rank" 403;
                    ChannelForbidden; Release] in
    fetch_problems_solved_and_rank (S fuel) client_session id t
      = Some (Ok None, t')
    /\ posts t' = S (posts t).
Proof.
  intros cs id fuel t Hstatus t'. split.
  - unfold fetch_problems_solved_and_rank. simpl.
    rewrite (wrapped_403 cs id t Hstatus). unfold entered.
    rewrite <- app_assoc. reflexivity.
  - unfold t'. rewrite posts_app. unfold posts at 2. simpl. lia.
Qed.

End Stats.

Lemma forbidden_is_final_witness :
  @fetch_problems_solved_and_rank plain_externals 1
    (answering (bare 403)) "ada" []
  = Some (Ok None,
          [Acquire; Post (user_stats_payload "ada");
           LogStatus "fetch_problems_solved_and_rank" 403;
           ChannelForbidden; Release])
  /\ posts [Acquire; Post (user_stats_payload "ada");
            LogStatus "fetch_problems_solved_and_rank" 403;
            ChannelForbidden; Release] = 1%nat.
Proof.
  apply (@forbidden_is_final plain_externals (answering (bare 403)) "ada"
           0%nat []).
  reflexivity.
Defined.

(** ** The retry decorator *)


Lemma posts_rounds (id : string) (n : nat) :
  forall k, posts (rounds id k n) = n.
Proof.
  induction n as [|n IH]; intros k; simpl.
  - reflexivity.
  - change (posts (Acquire :: Post (user_stats_payload id)
                     :: ChannelRateLimited :: Release
                     :: Backoff (2 ^ Z.of_nat k) :: rounds id (S k) n))
      with (S (posts (rounds id (S k) n))).
    now rewrite IH.
Qed.

Lemma on_exception_done {A} (target : M A) (fuel k : nat) (t : trace) :
  fst (target t) <> Raise RateLimitReached ->
  on_exception (S fuel) k target t = Some (target t).
Proof.
  intros Hnot. simpl.
  destruct (target t) as [[a|e] t']; [reflexivity|].
  destruct e; try reflexivity. exfalso. apply Hnot. reflexivity.
Qed.

Section Decoded.

Context {ext : Externals}.

(** A matched user is never an empty object when a key is found in it. *)
Lemma matched_user_truthy (matched_user name : value) :
  getpath matched_user ["profile"; "realName"] = Ok name ->
  truthy matched_user = true.
Proof.
  cbn [getpath]. destruct matched_user; try discriminate.
  match goal with
  | |- context [VDict ?items] => destruct items; [discriminate | reflexivity]
  end.
Qed.

(** What the [try] block binds for a body that names a matched user. *)
Lemma read_user_decodes
  (response_data matched_user name ac_submission_num e m h : value) :
  getpath response_data ["data"; "matchedUser"] = Ok matched_user ->
  getpath matched_user ["profile"; "realName"] = Ok name ->
  getpath matched_user ["submitStatsGlobal"; "acSubmissionNum"]
    = Ok ac_submission_num ->
  next_count ac_submission_num "Easy" = Ok e ->
  next_count ac_submission_num "Medium" = Ok m ->
  next_count ac_submission_num "Hard" = Ok h ->
  read_user response_data = Ok (Some (name, e, m, h)).
Proof.
  intros Hmu Hname Hasn He Hm Hh. unfold read_user.
  rewrite Hmu. cbn [Py.bind].
  rewrite (matched_user_truthy _ _ Hname). cbn [negb].
  rewrite Hname. cbn [Py.bind]. cbn [getpath] in Hasn.
  destruct (getitem matched_user "submitStatsGlobal") as [ssg|];
    [|discriminate].
  cbn [Py.bind] in Hasn |- *.
  destruct (getitem ssg "acSubmissionNum") as [asn|]; [|discriminate].
  cbn [Py.bind] in Hasn |- *. injection Hasn as ->.
  rewrite He, Hm, Hh. reflexivity.
Qed.

(** Such a body becomes a [UserStats] as soon as the counts are scored. *)
Lemma user_stats_of_decodes (id : string)
  (response_data matched_user name ac_submission_num e m h s : value)
  (t : trace) :
  getpath response_data ["data"; "matchedUser"] = Ok matched_user ->
  getpath matched_user ["profile"; "realName"] = Ok name ->
  getpath matched_user ["submitStatsGlobal"; "acSubmissionNum"]
    = Ok ac_submission_num ->
  next_count ac_submission_num "Easy" = Ok e ->
  next_count ac_submission_num "Medium" = Ok m ->
  next_count ac_submission_num "Hard" = Ok h ->
  convert_to_score e m h = Ok s ->
  user_stats_of id response_data t
  = (Ok (Some {| real_name := name;
                 submissions := {| easy := e; medium := m; hard := h;
                                   score := s |} |}), t).
Proof.
  intros Hmu Hname Hasn He Hm Hh Hscore.
  unfold user_stats_of, try_except, mbind, lift, ret.
  rewrite (read_user_decodes _ _ _ _ _ _ _ Hmu Hname Hasn He Hm Hh).
  unfold build_user_stats. now rewrite Hscore.
Qed.

End Decoded.

Section Retry.

Context {ext : Externals}.

Variable client_session : session.
Variable id : string.

(** As long as the service answers 429 the decorator keeps calling. *)
Lemma on_exception_rounds (n : nat) :
  forall (fuel k : nat) (t : trace),
    (forall j, (j < n)%nat ->
       status (client_session (posts t + j)%nat (user_stats_payload id))
       = 429) ->
    on_exception (n + fuel) k
      (fetch_problems_solved_and_rank_wrapped client_session id) t
    = on_exception fuel (k + n)
        (fetch_problems_solved_and_rank_wrapped client_session id)
        (t ++ rounds id k n).
Proof.
  induction n as [|n IH]; intros fuel k t H429.
  - simpl. now rewrite app_nil_r, Nat.add_0_r.
  - assert (H0 : status (client_session (posts t) (user_stats_payload id))
                 = 429).
    { rewrite <- (Nat.add_0_r (posts t)). apply H429. lia. }
    change (S n + fuel)%nat with (S (n + fuel)).
    cbn [on_exception].
    rewrite (wrapped_429 client_session id t H0).
    rewrite IH.
    + replace (S k + n)%nat with (k + S n)%nat by lia.
      f_equal. unfold entered. cbn [rounds].
      rewrite <- !app_assoc. reflexivity.
    + intros j Hj.
      rewrite !posts_app, posts_entered.
      replace (S (posts t)
               + posts [ChannelRateLimited; Release]
               + posts [Backoff (2 ^ Z.of_nat k)] + j)%nat
        with (posts t + S j)%nat by (unfold posts; simpl; lia).
      apply H429. lia.
Qed.

(** The rounds of a rate-limited call, whatever the 200 body holds: the
    call ends with what [user_stats_of] makes of the body. *)
Lemma retries_then_decodes :
  forall (n fuel : nat) (t : trace) (response_data : value),
    (forall j, (j < n)%nat ->
       status (client_session (posts t + j)%nat (user_stats_payload id))
       = 429) ->
    client_session (posts t + n)%nat (user_stats_payload id)
      = ok200 response_data ->
    (n < fuel)%nat ->
    fetch_problems_solved_and_rank fuel client_session id t
    = Some (user_stats_of id response_data
              (t ++ rounds id 0 n
                 ++ [Acquire; Post (user_stats_payload id); Sleep;
                     Release])).
Proof.
  intros n fuel t rd H429 H200 Hfuel.
  unfold fetch_problems_solved_and_rank.
  replace fuel with (n + S (fuel - S n))%nat by lia.
  rewrite (on_exception_rounds n _ 0%nat t H429).
  rewrite on_exception_done;
    rewrite (wrapped_200 client_session id _ rd);
    try (rewrite posts_app, posts_rounds; exact H200).
  - unfold entered. rewrite <- !app_assoc. reflexivity.
  - apply user_stats_of_not_rate_limited.
Qed.

(** C5. If the service answers 429 to the first [n] requests of a call and
    200 to the next one, with a body that names a matched user, the call
    signals the rate limit [n] times, waits [1, 2, 4, ...] between the
    attempts, and then returns a [UserStats] made of the 200 body: its
    [realName], the three counts that the [next(...)] expressions read
    from its [acSubmissionNum], and the score of those counts. The caller
    gets this value and no [RateLimitReached], and [n + 1] requests have
    been issued. The case in the claim is [n = 1]; no bound on [n] is
    built into the decorator. *)
Theorem rate_limited_then_answered :
  forall (n fuel : nat) (t : trace)
         (response_data matched_user name ac_submission_num : value)
         (easy_count medium_count hard_count total : value),
    (forall j, (j < n)%nat ->
       status (client_session (posts t + j)%nat (user_stats_payload id))
       = 429) ->
    client_session (posts t + n)%nat (user_stats_payload id)
      = ok200 response_data ->
    (n < fuel)%nat ->
    getpath response_data ["data"; "matchedUser"] = Ok matched_user ->
    getpath matched_user ["profile"; "realName"] = Ok name ->
    getpath matched_user ["submitStatsGlobal"; "acSubmissionNum"]
      = Ok ac_submission_num ->
    next_count ac_submission_num "Easy" = Ok easy_count ->
    next_count ac_submission_num "Medium" = Ok medium_count ->
    next_count ac_submission_num "Hard" = Ok hard_count ->
    convert_to_score easy_count medium_count hard_count = Ok total ->
    let answered :=
      t ++ rounds id 0 n
        ++ [Acquire; Post (user_stats_payload id); Sleep; Release] in
    fetch_problems_solved_and_rank fuel client_session id t
      = Some (Ok (Some {| real_name := name;
                          submissions := {| easy := easy_count;
                                            medium := medium_count;
                                            hard := hard_count;
                                            score := total |} |}),
              answered)
    /\ posts answered = (posts t + n + 1)%nat.
Proof.
  intros n fuel t rd mu name asn e m h s H429 H200 Hfuel Hmu Hname Hasn
    He Hm Hh Hscore answered.
  split.
  - rewrite (retries_then_decodes n fuel t rd H429 H200 Hfuel).
    fold answered.
    now rewrite (user_stats_of_decodes id rd mu name asn e m h s answered
                   Hmu Hname Hasn He Hm Hh Hscore).
  - unfold answered. rewrite !posts_app, posts_rounds.
    unfold posts at 2. simpl. lia.
Qed.

End Retry.

(** The scenario of the claim, run: 429, then 200 with a well-formed
    body. *)
Example run_rate_limited_once :
  @fetch_problems_solved_and_rank plain_externals 2
    (scripted [bare 429; ok200 stats_body]) "ada" []
  = Some (Ok (Some ada_stats),
          [Acquire; Post (user_stats_payload "ada"); ChannelRateLimited;
           Release; Backoff 1;
           Acquire; Post (user_stats_payload "ada"); Sleep; Release]).
Proof. reflexivity. Qed.

Lemma rate_limited_then_answered_witness :
  let answered :=
    [] ++ rounds "ada" 0 1
       ++ [Acquire; Post (user_stats_payload "ada"); Sleep; Release] in
  @fetch_problems_solved_and_rank plain_externals 2
    (scripted [bare 429; ok200 stats_body]) "ada" []
  = Some (Ok (Some ada_stats), answered)
  /\ posts answered = (posts [] + 1 + 1)%nat.
Proof.
  apply (@rate_limited_then_answered plain_externals
           (scripted [bare 429; ok200 stats_body]) "ada" 1%nat 2%nat []
           stats_body
           (VDict [("profile", VDict [("realName", VStr "Ada")]);
                   ("submitStatsGlobal",
                    VDict [("acSubmissionNum", VList stats_items)])])
           (VStr "Ada") (VList stats_items)
           (VInt 4) (VInt 3) (VInt 0) (VInt 7)); try reflexivity.
  - intros j Hj. destruct j as [|j]; [reflexivity | lia].
  - lia.
Defined.

(** ** Counts per difficulty *)

Section Counts.

Context {ext : Externals}.

Lemma first_count_lacks (d : string) (items : list value) (v : value) :
  lacks items d = true -> first_count items d = Ok v -> v = VInt 0.
Proof.
  induction items as [|item items IH]; simpl; intros Hlacks Hcount.
  - now injection Hcount as <-.
  - apply andb_prop in Hlacks as [Hitem Hrest].
    unfold has_difficulty in Hitem.
    destruct (getitem item "difficulty") as [x|]; [|discriminate].
    simpl in Hcount. destruct (eq_str x d); [discriminate|].
    now apply IH.
Qed.

(** What a successful run of the [try] block has bound. *)
Lemma read_user_counts :
  forall (response_data ac_submission_num real_name e m h : value),
    read_user response_data = Ok (Some (real_name, e, m, h)) ->
    getpath response_data
      ["data"; "matchedUser"; "submitStatsGlobal"; "acSubmissionNum"]
      = Ok ac_submission_num ->
    next_count ac_submission_num "Easy" = Ok e
    /\ next_count ac_submission_num "Medium" = Ok m
    /\ next_count ac_submission_num "Hard" = Ok h.
Proof.
  intros rd asn rn e m h Hread Hpath.
  unfold read_user in Hread. cbn [getpath Py.bind] in Hread, Hpath.
  destruct (getitem rd "data") as [data|]; [|discriminate].
  cbn [Py.bind] in Hread, Hpath.
  destruct (getitem data "matchedUser") as [mu|]; [|discriminate].
  cbn [Py.bind] in Hread, Hpath.
  destruct (negb (truthy mu)); [discriminate|].
  destruct (getitem mu "profile") as [profile|]; [|discriminate].
  cbn [Py.bind] in Hread.
  destruct (getitem profile "realName"); [|discriminate].
  cbn [Py.bind] in Hread.
  destruct (getitem mu "submitStatsGlobal") as [ssg|]; [|discriminate].
  cbn [Py.bind] in Hread, Hpath.
  destruct (getitem ssg "acSubmissionNum") as [asn'|]; [|discriminate].
  cbn [Py.bind] in Hread, Hpath. injection Hpath as ->.
  destruct (next_count asn "Easy") as [e'|]; [|discriminate].
  destruct (next_count asn "Medium") as [m'|]; [|discriminate].
  destruct (next_count asn "Hard") as [h'|]; [|discriminate].
  cbn [Py.bind] in Hread. injection Hread as _ <- <- <-.
  repeat split; reflexivity.
Qed.

Lemma user_stats_of_returns :
  forall (id : string) (response_data : value) (t t' : trace)
         (stats : UserStats),
    user_stats_of id response_data t = (Ok (Some stats), t') ->
    exists real_name e m h s,
      read_user response_data = Ok (Some (real_name, e, m, h))
      /\ convert_to_score e m h = Ok s
      /\ stats = {| real_name := real_name;
                    submissions := {| easy := e; medium := m; hard := h;
                                      score := s |} |}.
Proof.
  intros id rd t t' stats Hrun.
  unfold user_stats_of, try_except, mbind, lift, ret, emit in Hrun.
  destruct (read_user rd) as [[[[[rn e] m] h]|]|x]; simpl in Hrun.
  - unfold build_user_stats in Hrun.
    destruct (convert_to_score e m h) as [s|] eqn:Hscore;
      [|discriminate].
    simpl in Hrun. injection Hrun as <- _.
    exists rn, e, m, h, s. split; [reflexivity|].
    split; [exact Hscore | reflexivity].
  - discriminate.
  - destruct x; discriminate.
Qed.

(** C10. When a 200 body is decoded into a [UserStats] and its
    [acSubmissionNum] list has no item whose difficulty is "Easy"
    ("Medium", "Hard"), the count recorded for that difficulty is 0; and
    the score is the value of [convert_to_score] on the three recorded
    counts. *)
Theorem missing_difficulty_counts_zero :
  forall (client_session : session) (id : string) (fuel : nat)
         (t t' : trace) (response_data : value) (items : list value)
         (stats : UserStats),
    client_session (posts t) (user_stats_payload id)
      = ok200 response_data ->
    getpath response_data
      ["data"; "matchedUser"; "submitStatsGlobal"; "acSubmissionNum"]
      = Ok (VList items) ->
    fetch_problems_solved_and_rank fuel client_session id t
      = Some (Ok (Some stats), t') ->
    (lacks items "Easy" = true -> easy (submissions stats) = VInt 0)
    /\ (lacks items "Medium" = true -> medium (submissions stats) = VInt 0)
    /\ (lacks items "Hard" = true -> hard (submissions stats) = VInt 0)
    /\ convert_to_score (easy (submissions stats))
         (medium (submissions stats)) (hard (submissions stats))
       = Ok (score (submissions stats)).
Proof.
  intros cs id fuel t t' rd items stats Hresp Hpath Hrun.
  destruct fuel as [|fuel]; [discriminate|].
  unfold fetch_problems_solved_and_rank in Hrun.
  rewrite on_exception_done in Hrun;
    rewrite (wrapped_200 cs id t rd Hresp) in *;
    [|apply user_stats_of_not_rate_limited].
  injection Hrun as Hrun.
  destruct (user_stats_of_returns _ _ _ _ _ Hrun)
    as (rn & e & m & h & s & Hread & Hscore & ->).
  destruct (read_user_counts rd (VList items) rn e m h Hread Hpath)
    as (He & Hm & Hh).
  simpl. repeat split; try exact Hscore; intros Hlacks.
  - exact (first_count_lacks "Easy" items e Hlacks He).
  - exact (first_count_lacks "Medium" items m Hlacks Hm).
  - exact (first_count_lacks "Hard" items h Hlacks Hh).
Qed.

End Counts.

Lemma missing_difficulty_counts_zero_witness :
  lacks stats_items "Hard" = true
  /\ hard (submissions ada_stats) = VInt 0
  /\ @convert_to_score plain_externals (easy (submissions ada_stats))
       (medium (submissions ada_stats)) (hard (submissions ada_stats))
     = Ok (score (submissions ada_stats)).
Proof.
  pose proof (@missing_difficulty_counts_zero plain_externals
                (answering (ok200 stats_body)) "ada" 1%nat []
                [Acquire; Post (user_stats_payload "ada"); Sleep; Release]
                stats_body stats_items ada_stats
                eq_refl eq_refl eq_refl) as (_ & _ & Hhard & Hscore).
  split; [reflexivity|]. split; [apply Hhard; reflexivity | exact Hscore].
Defined.

(** ** What is done to the HTML before it is converted *)

Lemma starts_with_cons (a c : ascii) (w s : string) :
  starts_with (String a w) (String c s) = Ascii.eqb a c && starts_with w s.
Proof. reflexivity. Qed.

Lemma contains_cons (sub : string) (c : ascii) (s : string) :
  contains sub (String c s) = starts_with sub (String c s) || contains sub s.
Proof. reflexivity. Qed.

(** A text without ampersand and space is found at the head of the result
    of the last substitution exactly when it is at the head of its
    input. *)
Lemma nbsp_to_space_head (w : string) :
  plain_text w = true ->
  forall s,
    starts_with w (Re.sub_from nbsp_to_space 0 s) = starts_with w s.
Proof.
  induction w as [|a w IH]; intros Hplain s; [reflexivity|].
  cbn [plain_text] in Hplain. apply andb_prop in Hplain as [Ha Hw].
  unfold plain_char in Ha. apply andb_prop in Ha as [Hamp Hspace].
  apply negb_true_iff in Hamp, Hspace.
  destruct s as [|c s]; [reflexivity|].
  cbn [Re.sub_from]. unfold nbsp_to_space at 1, Re.literal.
  destruct (starts_with "&nbsp;" (String c s)) eqn:Hmatch.
  - cbn [starts_with] in Hmatch. apply andb_prop in Hmatch as [Hc _].
    apply Ascii.eqb_eq in Hc as <-.
    cbn [String.length String.append starts_with].
    rewrite (Ascii.eqb_sym a " "), Hspace.
    rewrite (Ascii.eqb_sym a "&"), Hamp. reflexivity.
  - cbn [starts_with]. rewrite (IH Hw). reflexivity.
Qed.

Lemma nbsp_to_space_clean (s : string) :
  forall skip,
    contains "&nbsp;" (Re.sub_from nbsp_to_space skip s) = false.
Proof.
  induction s as [|c s IH]; intros skip; [reflexivity|].
  cbn [Re.sub_from]. destruct skip as [|skip]; [|apply IH].
  unfold nbsp_to_space at 1, Re.literal.
  destruct (starts_with "&nbsp;" (String c s)) eqn:Hmatch.
  - cbn [String.length String.append].
    rewrite contains_cons, IH. reflexivity.
  - rewrite contains_cons, IH, orb_false_r.
    change "&nbsp;"%string with (String "&"%char "nbsp;") in Hmatch |- *.
    rewrite starts_with_cons in Hmatch |- *.
    rewrite (nbsp_to_space_head "nbsp;" eq_refl). exact Hmatch.
Qed.

(** X19. No [&nbsp;] entity is handed to the converter. *)
Lemma prepare_html_no_nbsp (html : string) :
  contains "&nbsp;" (prepare_html html) = false.
Proof.
  unfold prepare_html. cbn [fold_left subsitutions].
  apply nbsp_to_space_clean.
Qed.

(** The preparation alone does not remove every tag the spec lists: an
    [<i>] inside a code block stays, an [<img>] without [src] stays, and
    removing one tag can put another together. *)
Example prepare_html_keeps :
  prepare_html "<code><i>x</i></code>" = "<code><i>x</i></code>"%string
  /\ prepare_html "<img alt=x>" = "<img alt=x>"%string
  /\ prepare_html "<code><<b>b>x</code>" = "<code><b>x</code>"%string
  /\ prepare_html "<sty<style></style>le>p{}</style>"
     = "<style>p{}</style>"%string.
Proof. repeat split; reflexivity. Qed.

(** What it does remove, on a typical fragment. *)
Example prepare_html_run :
  prepare_html
    ("<pre><strong>Input:</strong> n&nbsp;= 2<sup>3</sup></pre><img src="
     ++ dquote ++ "a.png" ++ dquote ++ " /><style>p{}</style>")
  = "<pre>Input: n = 2^3</pre>"%string.
Proof. reflexivity. Qed.

(** ** Collapsing newlines *)


Lemma collapse_newlines_pair (s : string) :
  collapse_newlines (String nl (String nl s))
  = String nl (collapse_newlines s).
Proof. reflexivity. Qed.

Lemma starts_with_two_newlines (c : ascii) (s : string) :
  starts_with two_newlines (String c s)
  = Ascii.eqb nl c && starts_with_newline s.
Proof.
  unfold two_newlines.
  destruct s as [|c' s]; cbn [starts_with starts_with_newline].
  - reflexivity.
  - rewrite andb_true_r, (Ascii.eqb_sym nl c'). reflexivity.
Qed.


Lemma collapse_newlines_other (c : ascii) (s : string) :
  Ascii.eqb nl c && starts_with_newline s = false ->
  collapse_newlines (String c s) = String c (collapse_newlines s).
Proof.
  intros H. unfold collapse_newlines, Re.sub. cbn [Re.sub_from].
  unfold Re.literal at 1.
  change (newline ++ newline)%string with two_newlines.
  rewrite starts_with_two_newlines, H. reflexivity.
Qed.





Section Newlines.

Context {ext : Externals}.


End Newlines.


Example blank_lines_html_run :
  @html_to_markdown plain_externals blank_lines_html
  = ("<pre>a" ++ newline ++ newline ++ "b</pre>")%string.
Proof. reflexivity. Qed.

(** * Further properties of the client *)

(** ** Answers other than 200 *)

Section NotOk.

Context {ext : Externals}.

(** X1. A status other than 200 ends each of the four question operations at
    once: the status is logged, [None] is returned, nothing is raised and
    the body of the answer is not read. *)
Theorem not_200_returns_none :
  forall (client_session : session) (difficulty : Difficulty)
         (text slug : string) (t : trace) (code : Z),
    (forall payload, status (client_session (posts t) payload) = code) ->
    code <> 200 ->
    fetch_random_question client_session difficulty t
      = (Ok VNone,
         t ++ [Post (random_question_payload difficulty);
               LogStatus "fetch_random_question" code])
    /\ fetch_daily_question client_session t
       = (Ok VNone,
          t ++ [Post daily_payload; LogStatus "fetch_daily_question" code])
    /\ search_question client_session text t
       = (Ok VNone,
          t ++ [Post (search_payload text);
                LogStatus "search_question" code])
    /\ fetch_question_info client_session slug t
       = (Ok None,
          t ++ [LogInfo slug; Post (question_info_payload slug);
                LogStatus "fetch_question_info" code]).
Proof.
  intros cs d text slug t code Hstatus Hcode.
  apply Z.eqb_neq in Hcode.
  repeat split.
  - unfold fetch_random_question, mbind, post, emit, ret.
    rewrite Hstatus, Hcode. cbn [negb]. rewrite <- app_assoc. reflexivity.
  - unfold fetch_daily_question, mbind, post, emit, ret.
    rewrite Hstatus, Hcode. cbn [negb]. rewrite <- app_assoc. reflexivity.
  - unfold search_question, mbind, post, emit, ret.
    rewrite Hstatus, Hcode. cbn [negb]. rewrite <- app_assoc. reflexivity.
  - unfold fetch_question_info, mbind, post, emit, ret.
    rewrite posts_snoc_other by reflexivity.
    rewrite Hstatus, Hcode. cbn [negb]. rewrite <- !app_assoc. reflexivity.
Qed.

(** X2. A status that is none of 200, 429 and 403 ends
    [fetch_problems_solved_and_rank] in the same way: logged, [None],
    one request, the slot given back, and no signal on the channel
    logger. *)
Theorem other_status_is_final :
  forall (client_session : session) (id : string) (fuel : nat) (t : trace)
         (code : Z),
    status (client_session (posts t) (user_stats_payload id)) = code ->
    code <> 200 -> code <> 429 -> code <> 403 ->
    fetch_problems_solved_and_rank (S fuel) client_session id t
    = Some (Ok None,
            t ++ [Acquire; Post (user_stats_payload id);
                  LogStatus "fetch_problems_solved_and_rank" code;
                  Release]).
Proof.
  intros cs id fuel t code Hstatus H200 H429 H403.
  apply Z.eqb_neq in H200, H429, H403.
  unfold fetch_problems_solved_and_rank. cbn [on_exception].
  unfold fetch_problems_solved_and_rank_wrapped, guarded_request,
    async_with_semaphore, mbind, post, emit, ret.
  rewrite posts_snoc_other by reflexivity.
  rewrite Hstatus, H200, H429, H403. rewrite <- !app_assoc. reflexivity.
Qed.

End NotOk.

Lemma not_200_returns_none_witness :
  fetch_daily_question (answering (bare 503)) []
  = (Ok VNone, [Post daily_payload; LogStatus "fetch_daily_question" 503]).
Proof.
  apply (@not_200_returns_none plain_externals (answering (bare 503))
           RANDOM "" "" [] 503).
  - reflexivity.
  - discriminate.
Defined.

Lemma other_status_is_final_witness :
  @fetch_problems_solved_and_rank plain_externals 1
    (answering (bare 500)) "ada" []
  = Some (Ok None,
          [Acquire; Post (user_stats_payload "ada");
           LogStatus "fetch_problems_solved_and_rank" 500; Release]).
Proof.
  apply (@other_status_is_final plain_externals (answering (bare 500))
           "ada" 0%nat [] 500); [reflexivity | discriminate ..].
Defined.

(** ** The guard around [fetch_problems_solved_and_rank] *)

Lemma held_app (a b : trace) : held (a ++ b) = held a + held b.
Proof.
  unfold held. induction a as [|e a IH]; simpl.
  - reflexivity.
  - rewrite IH. lia.
Qed.

Section Guard.

Context {ext : Externals}.

(** Decoding adds log lines only. *)
Lemma user_stats_of_trace (id : string) (response_data : value)
  (t : trace) :
  snd (user_stats_of id response_data t) = t
  \/ snd (user_stats_of id response_data t)
     = t ++ [LogDecode "fetch_problems_solved_and_rank" response_data].
Proof.
  unfold user_stats_of, try_except, mbind, lift, ret, emit.
  destruct (read_user response_data) as [[[[[rn e] m] h]|]|x]; simpl.
  - left. destruct (build_user_stats rn e m h); reflexivity.
  - now left.
  - destruct x; simpl; auto.
Qed.

Lemma posts_user_stats_of (id : string) (response_data : value)
  (t : trace) :
  posts (snd (user_stats_of id response_data t)) = posts t.
Proof.
  destruct (user_stats_of_trace id response_data t) as [-> | ->].
  - reflexivity.
  - now rewrite posts_snoc_other.
Qed.

Lemma held_user_stats_of (id : string) (response_data : value)
  (t : trace) :
  held (snd (user_stats_of id response_data t)) = held t.
Proof.
  destruct (user_stats_of_trace id response_data t) as [-> | ->].
  - reflexivity.
  - rewrite held_app. simpl. lia.
Qed.

(** A 200 answer whose body cannot be decoded: the exception of
    [response.json()] leaves the block, and the slot is given back. *)
Lemma wrapped_200_undecodable :
  forall (client_session : session) (id : string) (t : trace) (e : exn),
    status (client_session (posts t) (user_stats_payload id)) = 200 ->
    json (client_session (posts t) (user_stats_payload id)) = Raise e ->
    fetch_problems_solved_and_rank_wrapped client_session id t
    = (Raise e, entered id t ++ [Release]).
Proof.
  intros cs id t e Hstatus Hjson.
  unfold fetch_problems_solved_and_rank_wrapped, guarded_request,
    async_with_semaphore, mbind, post, lift.
  rewrite posts_snoc_other by reflexivity.
  rewrite Hstatus, Hjson. simpl.
  unfold entered. rewrite <- !app_assoc. reflexivity.
Qed.

Lemma wrapped_other :
  forall (client_session : session) (id : string) (t : trace) (code : Z),
    status (client_session (posts t) (user_stats_payload id)) = code ->
    code <> 200 -> code <> 429 -> code <> 403 ->
    fetch_problems_solved_and_rank_wrapped client_session id t
    = (Ok None,
       entered id t
       ++ [LogStatus "fetch_problems_solved_and_rank" code; Release]).
Proof.
  intros cs id t code Hstatus H200 H429 H403.
  apply Z.eqb_neq in H200, H429, H403.
  unfold fetch_problems_solved_and_rank_wrapped, guarded_request,
    async_with_semaphore, mbind, post, emit, ret.
  rewrite posts_snoc_other by reflexivity.
  rewrite Hstatus, H200, H429, H403.
  unfold entered. rewrite <- !app_assoc. reflexivity.
Qed.

(** What one call of the undecorated function does to the trace, whatever
    the answer: one request more, and as many slots held as before. *)
Lemma wrapped_one_request :
  forall (client_session : session) (id : string) (t : trace),
    posts (snd (fetch_problems_solved_and_rank_wrapped client_session id t))
    = S (posts t)
    /\ held (snd (fetch_problems_solved_and_rank_wrapped client_session
                    id t))
       = held t.
Proof.
  intros cs id t.
  assert (Hheld : held (entered id t) = held t + 1).
  { unfold entered. rewrite held_app. simpl. lia. }
  destruct (cs (posts t) (user_stats_payload id))
    as [code body] eqn:Hresp.
  assert (Hstatus : status (cs (posts t)
                              (user_stats_payload id)) = code)
    by now rewrite Hresp.
  assert (Hjson : json (cs (posts t) (user_stats_payload id))
                  = body)
    by now rewrite Hresp.
  destruct (Z.eq_dec code 200) as [-> | H200].
  - destruct body as [response_data | e].
    + rewrite (wrapped_200 cs id t response_data Hresp).
      rewrite posts_user_stats_of, held_user_stats_of.
      rewrite posts_app, held_app, posts_entered, Hheld.
      unfold posts at 2. simpl. lia.
    + rewrite (wrapped_200_undecodable cs id t e Hstatus Hjson).
      cbn [snd]. rewrite posts_app, held_app, posts_entered, Hheld.
      unfold posts at 2. simpl. lia.
  - destruct (Z.eq_dec code 429) as [-> | H429].
    + rewrite (wrapped_429 cs id t Hstatus).
      cbn [snd]. rewrite posts_app, held_app, posts_entered, Hheld.
      unfold posts at 2. simpl. lia.
    + destruct (Z.eq_dec code 403) as [-> | H403].
      * rewrite (wrapped_403 cs id t Hstatus).
        cbn [snd]. rewrite posts_app, held_app, posts_entered, Hheld.
        unfold posts at 2. simpl. lia.
      * rewrite (wrapped_other cs id t code Hstatus H200 H429
                   H403).
        cbn [snd]. rewrite posts_app, held_app, posts_entered, Hheld.
        unfold posts at 2. simpl. lia.
Qed.

(** X5. However a call of [fetch_problems_solved_and_rank] ends, by a value
    or by an exception and after any number of retries, every slot it
    took has been given back. *)
Theorem slot_always_given_back :
  forall (client_session : session) (id : string) (fuel : nat)
         (t t' : trace) (r : result (option UserStats)),
    fetch_problems_solved_and_rank fuel client_session id t = Some (r, t') ->
    held t' = held t.
Proof.
  intros cs id fuel. unfold fetch_problems_solved_and_rank.
  generalize 0%nat as tries.
  induction fuel as [|fuel IH]; intros tries t t' r Hrun; [discriminate|].
  cbn [on_exception] in Hrun.
  destruct (wrapped_one_request cs id t) as [_ Hheld].
  destruct (fetch_problems_solved_and_rank_wrapped cs id t)
    as [[v|e] t1]; cbn [snd] in Hheld.
  - injection Hrun as _ <-. exact Hheld.
  - destruct e; try (injection Hrun as _ <-; exact Hheld).
    apply IH in Hrun. rewrite Hrun, held_app, Hheld. simpl. lia.
Qed.

(** X3. Only a 429 makes the decorator call again: for any other answer the
    call ends after exactly one request, and what it raises, if anything,
    is not [RateLimitReached]. *)
Theorem one_request_unless_rate_limited :
  forall (client_session : session) (id : string) (fuel : nat) (t : trace),
    status (client_session (posts t) (user_stats_payload id)) <> 429 ->
    json (client_session (posts t) (user_stats_payload id))
      <> Raise RateLimitReached ->
    exists r t',
      fetch_problems_solved_and_rank (S fuel) client_session id t
        = Some (r, t')
      /\ posts t' = S (posts t)
      /\ r <> Raise RateLimitReached.
Proof.
  intros cs id fuel t H429 Hbody.
  unfold fetch_problems_solved_and_rank.
  destruct (wrapped_one_request cs id t) as [Hposts _].
  assert (Hnot : fst (fetch_problems_solved_and_rank_wrapped cs id t)
                 <> Raise RateLimitReached).
  { destruct (cs (posts t) (user_stats_payload id)) as [code body] eqn:Hresp.
    cbn [status json] in H429, Hbody.
    assert (Hstatus : status (cs (posts t) (user_stats_payload id)) = code)
      by now rewrite Hresp.
    assert (Hjson : json (cs (posts t) (user_stats_payload id)) = body)
      by now rewrite Hresp.
    destruct (Z.eq_dec code 200) as [-> | H200].
    - destruct body as [response_data | e].
      + rewrite (wrapped_200 cs id t response_data Hresp).
        apply user_stats_of_not_rate_limited.
      + rewrite (wrapped_200_undecodable cs id t e Hstatus Hjson).
        cbn [fst]. intros [= ->]. now apply Hbody.
    - destruct (Z.eq_dec code 403) as [-> | H403].
      + rewrite (wrapped_403 cs id t Hstatus). discriminate.
      + rewrite (wrapped_other cs id t code Hstatus H200 H429 H403).
        discriminate. }
  rewrite (on_exception_done _ fuel 0%nat t Hnot).
  destruct (fetch_problems_solved_and_rank_wrapped cs id t) as [r t'].
  exists r, t'. repeat split; [exact Hposts | exact Hnot].
Qed.

(** X4. The decorator never gives up: against a service that answers 429 to
    every request, no number of calls is enough for the call to end. *)
Theorem rate_limited_forever :
  forall (client_session : session) (id : string) (fuel : nat) (t : trace),
    (forall n payload, status (client_session n payload) = 429) ->
    fetch_problems_solved_and_rank fuel client_session id t = None.
Proof.
  intros cs id fuel t H429. unfold fetch_problems_solved_and_rank.
  rewrite <- (Nat.add_0_r fuel) at 1.
  rewrite (on_exception_rounds cs id fuel 0%nat 0%nat t).
  - reflexivity.
  - intros j _. apply H429.
Qed.

End Guard.

(** ** The counting gate under concurrent callers *)

Module GateFacts.

Import Gate.

Section Discipline.

Context {ext : Externals}.

Lemma brackets_app (x y : trace) :
  forall b,
    brackets b (x ++ y)
    = match brackets b x with
      | Some b' => brackets b' y
      | None => None
      end.
Proof.
  induction x as [|e x IH]; intros b; [reflexivity|].
  destruct e, b; cbn [app brackets]; auto.
Qed.

Lemma held_cons (e : event) (t : trace) :
  held (e :: t) = slot_change e + held t.
Proof. reflexivity. Qed.

(** A trace that keeps the discipline holds one slot or none. *)
Lemma brackets_held (d : trace) :
  forall b b', brackets b d = Some b' -> held d = Z.b2z b' - Z.b2z b.
Proof.
  induction d as [|e d IH]; intros b b' Hd.
  - injection Hd as <-. unfold held. simpl. lia.
  - rewrite held_cons.
    destruct e, b; cbn [brackets] in Hd; try discriminate;
      apply IH in Hd; rewrite Hd; destruct b'; simpl; lia.
Qed.

(** One run of the function body adds to the trace a round that keeps the
    discipline and ends outside the block. *)
Lemma wrapped_brackets (client_session : session) (id : string)
  (t : trace) :
  exists round,
    snd (fetch_problems_solved_and_rank_wrapped client_session id t)
    = t ++ round
    /\ brackets false round = Some false.
Proof.
  destruct (client_session (posts t) (user_stats_payload id))
    as [code body] eqn:Hresp.
  assert (Hstatus : status (client_session (posts t)
                              (user_stats_payload id)) = code)
    by now rewrite Hresp.
  assert (Hjson : json (client_session (posts t) (user_stats_payload id))
                  = body)
    by now rewrite Hresp.
  destruct (Z.eq_dec code 200) as [-> | H200].
  - destruct body as [response_data | e].
    + rewrite (wrapped_200 client_session id t response_data Hresp).
      destruct (user_stats_of_trace id response_data
                  (entered id t ++ [Sleep; Release])) as [-> | ->];
        unfold entered; rewrite <- !app_assoc;
        eexists; split; reflexivity.
    + rewrite (wrapped_200_undecodable client_session id t e Hstatus Hjson).
      unfold entered. cbn [snd]. rewrite <- !app_assoc.
      eexists; split; reflexivity.
  - destruct (Z.eq_dec code 429) as [-> | H429].
    + rewrite (wrapped_429 client_session id t Hstatus).
      unfold entered. cbn [snd]. rewrite <- !app_assoc.
      eexists; split; reflexivity.
    + destruct (Z.eq_dec code 403) as [-> | H403].
      * rewrite (wrapped_403 client_session id t Hstatus).
        unfold entered. cbn [snd]. rewrite <- !app_assoc.
        eexists; split; reflexivity.
      * rewrite (wrapped_other client_session id t code Hstatus H200 H429
                   H403).
        unfold entered. cbn [snd]. rewrite <- !app_assoc.
        eexists; split; reflexivity.
Qed.

(** So do the attempts of a call, however many there are. *)
Lemma attempts_brackets (client_session : session) (id : string)
  (fuel : nat) :
  forall (tries : nat) (t : trace),
    exists es,
      attempts fuel tries
        (fetch_problems_solved_and_rank_wrapped client_session id) t
      = t ++ es
      /\ brackets false es = Some false.
Proof.
  induction fuel as [|fuel IH]; intros tries t.
  - exists []. now rewrite app_nil_r.
  - cbn [attempts].
    destruct (wrapped_brackets client_session id t)
      as (round & Hsnd & Hround).
    destruct (fetch_problems_solved_and_rank_wrapped client_session id t)
      as [[v|e] t1]; cbn [snd] in Hsnd; subst t1.
    + now exists round.
    + destruct e; try now exists round.
      destruct (IH (S tries)
                  ((t ++ round) ++ [Backoff (2 ^ Z.of_nat tries)]))
        as (es & -> & Hes).
      exists (round ++ [Backoff (2 ^ Z.of_nat tries)] ++ es).
      split; [now rewrite <- !app_assoc|].
      rewrite brackets_app, Hround. exact Hes.
Qed.

(** The events of a call that ends are those of its attempts. *)
Lemma attempts_of_call {A} (target : M A) (fuel : nat) :
  forall (tries : nat) (t t' : trace) (r : result A),
    on_exception fuel tries target t = Some (r, t') ->
    attempts fuel tries target t = t'.
Proof.
  induction fuel as [|fuel IH]; intros tries t t' r Hrun; [discriminate|].
  cbn [on_exception attempts] in *.
  destruct (target t) as [[v|e] t1].
  - now injection Hrun as _ <-.
  - destruct e; try now injection Hrun as _ <-.
    exact (IH _ _ _ _ Hrun).
Qed.

Lemma call_events_of_call (c : caller) (r : result (option UserStats))
  (t' : trace) :
  fetch_problems_solved_and_rank (caller_attempts c) (caller_session c)
    (caller_id c) [] = Some (r, t') ->
  call_events c = t'.
Proof. apply attempts_of_call. Qed.

Lemma call_events_brackets (c : caller) :
  brackets false (call_events c) = Some false.
Proof.
  unfold call_events.
  destruct (attempts_brackets (caller_session c) (caller_id c)
              (caller_attempts c) 0 []) as (es & -> & Hes).
  exact Hes.
Qed.

End Discipline.

(** A task that keeps the discipline holds a slot exactly when the
    discipline says so. *)
Lemma holds_slot_brackets (k : task) (b : bool) :
  brackets false (done k) = Some b -> holds_slot k = b.
Proof.
  intros Hd. unfold holds_slot. rewrite (brackets_held _ _ _ Hd).
  now destruct b.
Qed.

(** A request in flight is the request of a task that holds a slot. *)
Lemma in_flight_holds (k : task) :
  well_bracketed k -> is_in_flight k = true -> holds_slot k = true.
Proof.
  intros (b & Hd & _) Hflight.
  rewrite (holds_slot_brackets k b Hd).
  unfold is_in_flight in Hflight.
  destruct (rev (done k)) as [|e l] eqn:Hrev; [discriminate|].
  destruct e; try discriminate.
  assert (Hdone : done k = rev l ++ [Post payload]).
  { rewrite <- (rev_involutive (done k)), Hrev. reflexivity. }
  rewrite Hdone, brackets_app in Hd.
  destruct (brackets false (rev l)) as [[|]|]; cbn [brackets] in Hd;
    try discriminate.
  now injection Hd as <-.
Qed.

Lemma in_flight_le_holders (ks : list task) :
  Forall well_bracketed ks ->
  (List.length (filter is_in_flight ks)
   <= List.length (filter holds_slot ks))%nat.
Proof.
  induction 1 as [|k ks Hk _ IH]; [reflexivity|].
  cbn [filter]. destruct (is_in_flight k) eqn:Hflight.
  - rewrite (in_flight_holds k Hk Hflight). simpl. lia.
  - destruct (holds_slot k); simpl; lia.
Qed.

Lemma holders_split (before after : list task) (k : task) :
  List.length (filter holds_slot (before ++ k :: after))
  = (List.length (filter holds_slot before) + occupancy k
     + List.length (filter holds_slot after))%nat.
Proof.
  rewrite filter_app, length_app. unfold occupancy. simpl.
  destruct (holds_slot k); simpl; lia.
Qed.

(** An event keeps the discipline of its task, and moves the counter by
    what the task's occupancy loses. *)
Lemma task_advance (e : event) (v v' : nat) (d rest : trace) :
  well_bracketed {| done := d; todo := e :: rest |} ->
  semaphore_step e v v' ->
  well_bracketed {| done := d ++ [e]; todo := rest |}
  /\ (v + occupancy {| done := d; todo := e :: rest |}
      = v' + occupancy {| done := d ++ [e]; todo := rest |})%nat.
Proof.
  intros (b & Hd & Ht) Hsem. cbn [done todo] in Hd, Ht.
  assert (Hnext : forall b',
            brackets b [e] = Some b' ->
            brackets b' rest = Some false ->
            well_bracketed {| done := d ++ [e]; todo := rest |}
            /\ occupancy {| done := d; todo := e :: rest |}
               = (if b then 1 else 0)%nat
            /\ occupancy {| done := d ++ [e]; todo := rest |}
               = (if b' then 1 else 0)%nat).
  { intros b' He Hrest.
    assert (Hd' : brackets false (d ++ [e]) = Some b')
      by now rewrite brackets_app, Hd.
    split; [now exists b'|].
    unfold occupancy.
    rewrite (holds_slot_brackets {| done := d; todo := e :: rest |} b Hd).
    rewrite (holds_slot_brackets {| done := d ++ [e]; todo := rest |} b'
               Hd').
    split; reflexivity. }
  destruct Hsem as [v | v | e v Hother].
  - destruct b; cbn [brackets] in Ht; [discriminate|].
    destruct (Hnext true eq_refl Ht) as (Hwf & -> & ->).
    split; [exact Hwf | lia].
  - destruct b; cbn [brackets] in Ht; [|discriminate].
    destruct (Hnext false eq_refl Ht) as (Hwf & -> & ->).
    split; [exact Hwf | lia].
  - assert (Hsame : brackets b [e] = Some b
                    /\ brackets b rest = Some false).
    { destruct e; try discriminate Hother;
        destruct b; cbn [brackets] in Ht |- *;
        try discriminate; split; (reflexivity || exact Ht). }
    destruct Hsame as [He Hrest].
    destruct (Hnext b He Hrest) as (Hwf & -> & ->).
    split; [exact Hwf | reflexivity].
Qed.

(** Every task keeps the discipline, and the counter and the tasks that
    hold a slot add up to 8. *)
Lemma reachable_invariant {ext : Externals} (callers : list caller)
  (s : state) :
  reachable (initial callers) s ->
  Forall well_bracketed (tasks s)
  /\ (counter s + holders s = slots)%nat.
Proof.
  induction 1 as [|e s s' _ [IHwf IHsum] Hstep].
  - unfold initial, holders. cbn [tasks counter]. split.
    + apply Forall_forall. intros k Hk.
      apply in_map_iff in Hk as (c & <- & _).
      exists false. split; [reflexivity | apply call_events_brackets].
    + induction callers as [|c callers IH]; [reflexivity | exact IH].
  - destruct Hstep as [e v v' d rest before after Hsem].
    unfold holders in *. cbn [tasks counter] in *.
    apply Forall_app in IHwf as [Hbefore Hrest].
    apply Forall_cons_iff in Hrest as [Hk Hafter].
    destruct (task_advance e v v' d rest Hk Hsem) as [Hk' Hocc].
    split.
    + apply Forall_app. split; [exact Hbefore|].
      now apply Forall_cons.
    + rewrite holders_split in IHsum |- *. lia.
Qed.

(** C8. Among concurrent calls of [fetch_problems_solved_and_rank], each
    doing the events of the function in their order, at most 8 requests
    are in flight and at most 8 calls are inside the [async with] block,
    in every state they can reach and whatever the service answers. When
    8 calls are inside, no call can take a slot: a ninth caller stays
    suspended at [async with semaphore], and 8 calls stay inside until
    one of them releases its slot. *)
Theorem at_most_eight_in_flight :
  forall {ext : Externals} (callers : list caller) (s : state),
    reachable (initial callers) s ->
    (in_flight s <= 8)%nat
    /\ (holders s <= 8)%nat
    /\ (holders s = 8%nat ->
        forall (e : event) (s' : state),
          step e s s' ->
          e <> Acquire /\ (holders s' = 8%nat \/ e = Release)).
Proof.
  intros ext callers s Hreach.
  destruct (reachable_invariant callers s Hreach) as [Hwf Hsum].
  pose proof (in_flight_le_holders (tasks s) Hwf) as Hle.
  fold (in_flight s) in Hle. fold (holders s) in Hle.
  unfold slots in Hsum. split; [lia|]. split; [lia|].
  intros Hfull e s' Hstep.
  assert (Hzero : counter s = 0%nat) by lia.
  destruct (reachable_invariant callers s'
              (reach_step _ e s s' Hreach Hstep)) as [_ Hsum'].
  unfold slots in Hsum'.
  destruct Hstep as [e v v' d rest before after Hsem].
  cbn [counter] in Hzero, Hsum'. subst v.
  inversion Hsem; subst; split; try discriminate;
    try (right; reflexivity); try (left; lia).
  intros ->. discriminate.
Qed.

(** The function takes steps of the relation only. *)
Lemma semaphore_fire_sound (e : event) (v v' : nat) :
  semaphore_fire e v = Some v' -> semaphore_step e v v'.
Proof.
  destruct e; cbn [semaphore_fire]; intros Hfire;
    try (injection Hfire as <-; now constructor).
  destruct v; [discriminate|]. injection Hfire as <-. constructor.
Qed.

Lemma split_at {A} (before after : list A) (x y : A) :
  firstn (List.length before) (before ++ x :: after)
  ++ y :: skipn (S (List.length before)) (before ++ x :: after)
  = before ++ y :: after.
Proof.
  induction before as [|b before IH]; simpl.
  - reflexivity.
  - f_equal. exact IH.
Qed.

Lemma fire_sound (i : nat) (s s' : state) :
  fire i s = Some s' -> exists e, step e s s'.
Proof.
  unfold fire. destruct s as [v ks]; cbn [tasks counter].
  destruct (nth_error ks i) as [[d [|e rest]]|] eqn:Hnth;
    try discriminate.
  destruct (semaphore_fire e v) as [v'|] eqn:Hfire; [|discriminate].
  intros Hs'. injection Hs' as <-. exists e.
  apply nth_error_split in Hnth as (before & after & -> & <-).
  change (step e
            {| counter := v;
               tasks := before ++ {| done := d; todo := e :: rest |}
                          :: after |}
            {| counter := v';
               tasks := firstn (List.length before)
                          (before ++ {| done := d; todo := e :: rest |}
                             :: after)
                        ++ {| done := d ++ [e]; todo := rest |}
                           :: skipn (S (List.length before))
                                (before ++ {| done := d;
                                              todo := e :: rest |}
                                   :: after) |}).
  rewrite split_at. apply step_task. now apply semaphore_fire_sound.
Qed.

Lemma play_reachable (s0 : state) (schedule : list nat) :
  forall s s',
    reachable s0 s -> play schedule s = Some s' -> reachable s0 s'.
Proof.
  induction schedule as [|i rest IH]; simpl; intros s s' Hreach Hplay.
  - now injection Hplay as <-.
  - destruct (fire i s) as [s1|] eqn:Hfire; [|discriminate].
    apply (IH s1 s'); [|exact Hplay].
    destruct (fire_sound i s s1 Hfire) as [e Hstep].
    exact (reach_step s0 e s s1 Hreach Hstep).
Qed.

(** The events of a caller that is rate-limited once. *)
Example call_events_run :
  @call_events plain_externals
    {| caller_session := scripted [bare 429; ok200 stats_body];
       caller_id := "ada";
       caller_attempts := 2 |}
  = [Acquire; Post (user_stats_payload "ada"); ChannelRateLimited; Release;
     Backoff 1;
     Acquire; Post (user_stats_payload "ada"); Sleep; Release].
Proof. reflexivity. Qed.

(** With nine callers the state in which eight requests are in flight and
    the ninth caller has yet to take a slot can be reached, and there the
    ninth cannot take one. *)
Example nine_callers_run :
  play eight_enter (@initial plain_externals nine_callers) = Some gate_full
  /\ in_flight gate_full = 8%nat
  /\ fire 8 gate_full = None.
Proof. repeat split; reflexivity. Qed.

Lemma at_most_eight_in_flight_witness :
  (in_flight gate_full <= 8)%nat
  /\ (holders gate_full <= 8)%nat
  /\ (holders gate_full = 8%nat ->
      forall (e : event) (s' : state),
        step e gate_full s' ->
        e <> Acquire /\ (holders s' = 8%nat \/ e = Release)).
Proof.
  apply (@at_most_eight_in_flight plain_externals nine_callers gate_full).
  apply (play_reachable (@initial plain_externals nine_callers) eight_enter
           (@initial plain_externals nine_callers) gate_full).
  - apply reach_initial.
  - reflexivity.
Defined.

End GateFacts.

Lemma slot_always_given_back_witness :
  held [Acquire; Post (user_stats_payload "ada"); ChannelRateLimited;
        Release; Backoff 1;
        Acquire; Post (user_stats_payload "ada"); Sleep; Release]
  = held [].
Proof.
  apply (@slot_always_given_back plain_externals
           (scripted [bare 429; ok200 stats_body]) "ada" 2%nat []
           _ (Ok (Some ada_stats))).
  reflexivity.
Defined.

Lemma one_request_unless_rate_limited_witness :
  exists r t',
    @fetch_problems_solved_and_rank plain_externals 1
      (answering (ok200 (VDict []))) "ada" [] = Some (r, t')
    /\ posts t' = S (posts [])
    /\ r <> Raise RateLimitReached.
Proof.
  apply (@one_request_unless_rate_limited plain_externals
           (answering (ok200 (VDict []))) "ada" 0%nat []); discriminate.
Defined.

Lemma rate_limited_forever_witness :
  @fetch_problems_solved_and_rank plain_externals 100
    (answering (bare 429)) "ada" [] = None.
Proof.
  apply (@rate_limited_forever plain_externals (answering (bare 429)) "ada"
           100%nat []).
  reflexivity.
Defined.

(** ** Decoding the user statistics *)

Section Decoding.

Context {ext : Externals}.

Lemma fetched_200 :
  forall (client_session : session) (id : string) (fuel : nat) (t : trace)
         (response_data : value),
    client_session (posts t) (user_stats_payload id)
      = ok200 response_data ->
    fetch_problems_solved_and_rank (S fuel) client_session id t
    = Some (user_stats_of id response_data
              (t ++ [Acquire; Post (user_stats_payload id); Sleep;
                     Release])).
Proof.
  intros cs id fuel t rd Hresp.
  unfold fetch_problems_solved_and_rank.
  rewrite on_exception_done; rewrite (wrapped_200 cs id t rd Hresp).
  - unfold entered. rewrite <- app_assoc. reflexivity.
  - apply user_stats_of_not_rate_limited.
Qed.

(** X6. When the service knows no such user ([matchedUser] is null, or
    anything else that is false), the call returns [None] and logs
    nothing. *)
Theorem unknown_user_returns_none :
  forall (client_session : session) (id : string) (fuel : nat) (t : trace)
         (response_data matched_user : value),
    client_session (posts t) (user_stats_payload id)
      = ok200 response_data ->
    getpath response_data ["data"; "matchedUser"] = Ok matched_user ->
    truthy matched_user = false ->
    fetch_problems_solved_and_rank (S fuel) client_session id t
    = Some (Ok None,
            t ++ [Acquire; Post (user_stats_payload id); Sleep; Release]).
Proof.
  intros cs id fuel t rd mu Hresp Hmu Hfalse.
  rewrite (fetched_200 cs id fuel t rd Hresp).
  unfold user_stats_of, try_except, mbind, lift, ret, read_user.
  rewrite Hmu. cbn [Py.bind]. rewrite Hfalse. reflexivity.
Qed.

Lemma first_count_found (d : string) (item c : value)
  (after : list value) :
  getitem item "difficulty" = Ok (VStr d) ->
  getitem item "count" = Ok c ->
  forall before found,
    lacks before d = true ->
    first_count (before ++ item :: after) d = Ok found ->
    found = c.
Proof.
  intros Hd Hc before. induction before as [|x before IH];
    intros found Hlacks Hcount; simpl in Hcount.
  - rewrite Hd in Hcount. cbn [Py.bind eq_str] in Hcount.
    rewrite String.eqb_refl, Hc in Hcount. now injection Hcount as <-.
  - simpl in Hlacks. apply andb_prop in Hlacks as [Hx Hrest].
    unfold has_difficulty in Hx.
    destruct (getitem x "difficulty") as [v|]; [|discriminate].
    cbn [Py.bind] in Hcount. destruct (eq_str v d); [discriminate|].
    now apply IH.
Qed.

(** X7. The count recorded for a difficulty is the [count] of the first item
    of [acSubmissionNum] that has this difficulty; later items with the
    same difficulty are not looked at. *)
Theorem first_entry_gives_the_count :
  forall (client_session : session) (id : string) (fuel : nat)
         (t t' : trace) (response_data : value) (items : list value)
         (stats : UserStats),
    client_session (posts t) (user_stats_payload id)
      = ok200 response_data ->
    getpath response_data
      ["data"; "matchedUser"; "submitStatsGlobal"; "acSubmissionNum"]
      = Ok (VList items) ->
    fetch_problems_solved_and_rank fuel client_session id t
      = Some (Ok (Some stats), t') ->
    forall (before after : list value) (item c : value) (d : string),
      items = before ++ item :: after ->
      lacks before d = true ->
      getitem item "difficulty" = Ok (VStr d) ->
      getitem item "count" = Ok c ->
      (d = "Easy"%string -> easy (submissions stats) = c)
      /\ (d = "Medium"%string -> medium (submissions stats) = c)
      /\ (d = "Hard"%string -> hard (submissions stats) = c).
Proof.
  intros cs id fuel t t' rd items stats Hresp Hpath Hrun
    before after item c d -> Hlacks Hd Hc.
  destruct fuel as [|fuel]; [discriminate|].
  rewrite (fetched_200 cs id fuel t rd Hresp) in Hrun.
  injection Hrun as Hrun.
  destruct (user_stats_of_returns _ _ _ _ _ Hrun)
    as (rn & e & m & h & s & Hread & _ & ->).
  destruct (read_user_counts rd _ rn e m h Hread Hpath) as (He & Hm & Hh).
  unfold next_count in He, Hm, Hh. cbn [Py.iter Py.bind] in He, Hm, Hh.
  cbn [easy medium hard submissions].
  repeat split; intros ->.
  - exact (first_count_found _ item c after Hd Hc before e Hlacks He).
  - exact (first_count_found _ item c after Hd Hc before m Hlacks Hm).
  - exact (first_count_found _ item c after Hd Hc before h Hlacks Hh).
Qed.

Lemma first_count_of_entries (d : string) (items : list value) :
  forallb is_entry items = true -> exists c, first_count items d = Ok c.
Proof.
  induction items as [|item items IH]; simpl; intros Hentries.
  - now exists (VInt 0).
  - apply andb_prop in Hentries as [Hitem Hrest]. unfold is_entry in Hitem.
    destruct (getitem item "difficulty") as [v|]; [|discriminate].
    destruct (getitem item "count") as [c|]; [|discriminate].
    cbn [Py.bind]. destruct (eq_str v d); [now exists c | now apply IH].
Qed.

(** X8. A body of the expected shape is always decoded: when the user has a
    profile with a [realName] and every item of [acSubmissionNum] has its
    two keys, no exception comes out of the [try]: each of the three
    [next(...)] expressions yields a count, and as soon as the scoring
    function returns for those counts, the call returns the statistics
    with that name, those counts and that score. *)
Theorem well_formed_stats_are_returned :
  forall (client_session : session) (id : string) (fuel : nat) (t : trace)
         (response_data matched_user name : value) (items : list value),
    client_session (posts t) (user_stats_payload id)
      = ok200 response_data ->
    getpath response_data ["data"; "matchedUser"] = Ok matched_user ->
    getpath matched_user ["profile"; "realName"] = Ok name ->
    getpath matched_user ["submitStatsGlobal"; "acSubmissionNum"]
      = Ok (VList items) ->
    forallb is_entry items = true ->
    exists e m h,
      next_count (VList items) "Easy" = Ok e
      /\ next_count (VList items) "Medium" = Ok m
      /\ next_count (VList items) "Hard" = Ok h
      /\ forall s,
           convert_to_score e m h = Ok s ->
           fetch_problems_solved_and_rank (S fuel) client_session id t
           = Some (Ok (Some {| real_name := name;
                               submissions := {| easy := e; medium := m;
                                                 hard := h;
                                                 score := s |} |}),
                   t ++ [Acquire; Post (user_stats_payload id); Sleep;
                         Release]).
Proof.
  intros cs id fuel t rd mu name items Hresp Hmu Hname Hitems Hentries.
  destruct (first_count_of_entries "Easy" items Hentries) as [e He].
  destruct (first_count_of_entries "Medium" items Hentries) as [m Hm].
  destruct (first_count_of_entries "Hard" items Hentries) as [h Hh].
  exists e, m, h. repeat split; try assumption. intros s Hscore.
  rewrite (fetched_200 cs id fuel t rd Hresp).
  now rewrite (user_stats_of_decodes id rd mu name (VList items) e m h s _
                 Hmu Hname Hitems He Hm Hh Hscore).
Qed.

End Decoding.

Lemma unknown_user_returns_none_witness :
  @fetch_problems_solved_and_rank plain_externals 1
    (answering (ok200 nobody_body)) "nobody" []
  = Some (Ok None,
          [Acquire; Post (user_stats_payload "nobody"); Sleep; Release]).
Proof.
  apply (@unknown_user_returns_none plain_externals
           (answering (ok200 nobody_body)) "nobody" 0%nat [] nobody_body
           VNone); reflexivity.
Defined.

Lemma first_entry_gives_the_count_witness :
  easy (submissions ada_stats) = VInt 4.
Proof.
  apply (@first_entry_gives_the_count plain_externals
           (answering (ok200 stats_body)) "ada" 1%nat []
           [Acquire; Post (user_stats_payload "ada"); Sleep; Release]
           stats_body stats_items ada_stats eq_refl eq_refl eq_refl
           [solved "All" 7] [solved "Medium" 3] (solved "Easy" 4) (VInt 4)
           "Easy" eq_refl eq_refl eq_refl eq_refl).
  reflexivity.
Defined.

Lemma well_formed_stats_are_returned_witness :
  @fetch_problems_solved_and_rank plain_externals 1
    (answering (ok200 stats_body)) "ada" []
  = Some (Ok (Some ada_stats),
          [] ++ [Acquire; Post (user_stats_payload "ada"); Sleep;
                 Release]).
Proof.
  destruct (@well_formed_stats_are_returned plain_externals
              (answering (ok200 stats_body)) "ada" 0%nat [] stats_body
              (VDict [("profile", VDict [("realName", VStr "Ada")]);
                      ("submitStatsGlobal",
                       VDict [("acSubmissionNum", VList stats_items)])])
              (VStr "Ada") stats_items eq_refl eq_refl eq_refl eq_refl
              eq_refl)
    as (e & m & h & He & Hm & Hh & Hrun).
  injection He as <-. injection Hm as <-. injection Hh as <-.
  exact (Hrun (VInt 7) eq_refl).
Defined.

(** ** Slugs *)

Section Slugs.

Context {ext : Externals}.

(** X9. On a 200 answer that has the expected chain of keys,
    [fetch_random_question] and [fetch_daily_question] return the value
    found at its end, after one request and without a log line. *)
Theorem slug_is_returned :
  forall (client_session : session) (difficulty : Difficulty) (t : trace)
         (response_data slug : value),
    (forall payload,
       client_session (posts t) payload = ok200 response_data) ->
    (getpath response_data ["data"; "randomQuestion"; "titleSlug"]
       = Ok slug ->
     fetch_random_question client_session difficulty t
     = (Ok slug, t ++ [Post (random_question_payload difficulty)]))
    /\ (getpath response_data
          ["data"; "challenge"; "question"; "titleSlug"] = Ok slug ->
        fetch_daily_question client_session t
        = (Ok slug, t ++ [Post daily_payload])).
Proof.
  intros cs d t rd slug Hresp. split; intros Hpath.
  - rewrite (fetch_random_question_200 cs d t rd (Hresp _)).
    now rewrite Hpath.
  - rewrite (fetch_daily_question_200 cs t rd (Hresp _)).
    now rewrite Hpath.
Qed.

(** X10. When the answer to a search carries no list object
    ([problemsetQuestionList] is null or an empty object),
    [search_question] returns [None] and logs nothing. *)
Theorem search_without_list_returns_none :
  forall (client_session : session) (text : string) (t : trace)
         (response_data found : value),
    client_session (posts t) (search_payload text) = ok200 response_data ->
    getpath response_data ["data"; "problemsetQuestionList"] = Ok found ->
    truthy found = false ->
    search_question client_session text t
    = (Ok VNone, t ++ [Post (search_payload text)]).
Proof.
  intros cs text t rd found Hresp Hfound Hfalse.
  unfold search_question, mbind, post, try_except, lift. rewrite Hresp.
  cbn [status json ok200 Z.eqb Pos.eqb negb]. unfold first_match.
  rewrite Hfound. cbn [Py.bind]. rewrite Hfalse. reflexivity.
Qed.

(** X11. The slug returned by a search is that of the first question of the
    list, whatever follows it. *)
Theorem search_returns_first_slug :
  forall (client_session : session) (text : string) (t : trace)
         (response_data found first slug : value) (others : list value),
    client_session (posts t) (search_payload text) = ok200 response_data ->
    getpath response_data ["data"; "problemsetQuestionList"] = Ok found ->
    getitem found "questions" = Ok (VList (first :: others)) ->
    getitem first "titleSlug" = Ok slug ->
    search_question client_session text t
    = (Ok slug, t ++ [Post (search_payload text)]).
Proof.
  intros cs text t rd found first slug others Hresp Hfound Hqs Hslug.
  unfold search_question, mbind, post, try_except, lift. rewrite Hresp.
  cbn [status json ok200 Z.eqb Pos.eqb negb]. unfold first_match.
  rewrite Hfound. cbn [Py.bind].
  assert (Htruthy : truthy found = true).
  { destruct found; simpl in Hqs; try discriminate.
    destruct items; [discriminate | reflexivity]. }
  rewrite Htruthy. cbn [negb]. rewrite Hqs. cbn [Py.bind getitem0].
  rewrite Hslug. reflexivity.
Qed.

End Slugs.

Lemma slug_is_returned_witness :
  fetch_daily_question (answering (ok200 daily_body)) []
  = (Ok (VStr "two-sum"), [] ++ [Post daily_payload]).
Proof.
  apply (slug_is_returned (answering (ok200 daily_body)) RANDOM []
           daily_body (VStr "two-sum")); reflexivity.
Defined.

Lemma search_without_list_returns_none_witness :
  search_question
    (answering
       (ok200 (VDict [("data", VDict [("problemsetQuestionList", VNone)])])))
    "zzz" []
  = (Ok VNone, [] ++ [Post (search_payload "zzz")]).
Proof.
  apply (search_without_list_returns_none _ "zzz" []
           (VDict [("data", VDict [("problemsetQuestionList", VNone)])])
           VNone); reflexivity.
Defined.

Lemma search_returns_first_slug_witness :
  search_question (answering (ok200 search_body)) "two" []
  = (Ok (VStr "two-sum"), [] ++ [Post (search_payload "two")]).
Proof.
  apply (search_returns_first_slug (answering (ok200 search_body)) "two" []
           search_body search_found search_hit (VStr "two-sum") []);
    reflexivity.
Defined.

(** ** Question records *)

Section Records.

Context {ext : Externals}.

Lemma read_question_fields :
  forall (slug : string) (response_data question : value)
         (q : question_fields),
    getpath response_data ["data"; "question"] = Ok question ->
    read_question slug response_data = Ok q ->
    f_link q = ("https://leetcode.com/problems/" ++ slug)%string
    /\ getitem question "questionFrontendId" = Ok (f_question_id q)
    /\ getitem question "difficulty" = Ok (f_difficulty q)
    /\ getitem question "title" = Ok (f_title q)
    /\ getitem question "isPaidOnly" = Ok (f_is_paid_only q)
    /\ (truthy (f_is_paid_only q) = false ->
        getitem question "content" = Ok (f_content q))
    /\ exists raw stats,
         getitem question "stats" = Ok raw
         /\ literal_eval raw = Ok stats
         /\ getitem stats "totalAccepted" = Ok (f_total_accepted q)
         /\ getitem stats "totalSubmission" = Ok (f_total_submission q)
         /\ getitem stats "acRate" = Ok (f_ac_rate q).
Proof.
  intros slug rd question q Hq Hread.
  unfold read_question in Hread. rewrite Hq in Hread.
  cbn [Py.bind] in Hread.
  destruct (getitem question "questionFrontendId"); [|discriminate].
  destruct (getitem question "difficulty"); [|discriminate].
  destruct (getitem question "title"); [|discriminate].
  destruct (getitem question "isPaidOnly") as [paid|]; [|discriminate].
  cbn [Py.bind] in Hread.
  destruct (truthy paid) eqn:Hpaid; cbn [negb] in Hread.
  - cbn [Py.bind] in Hread.
    destruct (getitem question "stats") as [raw|] eqn:Hraw;
      [|discriminate].
    cbn [Py.bind] in Hread.
    destruct (literal_eval raw) as [stats|] eqn:Hstats; [|discriminate].
    cbn [Py.bind] in Hread.
    destruct (getitem stats "totalAccepted") eqn:Hacc; [|discriminate].
    destruct (getitem stats "totalSubmission") eqn:Hsub; [|discriminate].
    destruct (getitem stats "acRate") eqn:Hrate; [|discriminate].
    cbn [Py.bind] in Hread. injection Hread as <-. cbn.
    repeat split; try reflexivity.
    + rewrite Hpaid. discriminate.
    + exists raw, stats. repeat split; assumption.
  - destruct (getitem question "content"); [|discriminate].
    cbn [Py.bind] in Hread.
    destruct (getitem question "stats") as [raw|] eqn:Hraw;
      [|discriminate].
    cbn [Py.bind] in Hread.
    destruct (literal_eval raw) as [stats|] eqn:Hstats; [|discriminate].
    cbn [Py.bind] in Hread.
    destruct (getitem stats "totalAccepted") eqn:Hacc; [|discriminate].
    destruct (getitem stats "totalSubmission") eqn:Hsub; [|discriminate].
    destruct (getitem stats "acRate") eqn:Hrate; [|discriminate].
    cbn [Py.bind] in Hread. injection Hread as <-. cbn.
    repeat split; try reflexivity.
    exists raw, stats. repeat split; assumption.
Qed.

Lemma build_question_info_fields :
  forall (q : question_fields) (info : QuestionInfo),
    build_question_info q = Ok (Some info) ->
    premium info = f_is_paid_only q
    /\ question_id info = f_question_id q
    /\ difficulty info = f_difficulty q
    /\ title info = f_title q
    /\ link info = f_link q
    /\ total_accepted info = f_total_accepted q
    /\ total_submission info = f_total_submission q
    /\ ac_rate info = f_ac_rate q
    /\ (exists content,
          f_content q = VStr content
          /\ (description info, example_one info, follow_up info)
             = parse_content content)
    /\ (truthy (f_is_paid_only q) = true -> question_rating info = None)
    /\ (truthy (f_is_paid_only q) = false ->
        exists rating,
          fetch_rating (f_title q) = Ok rating
          /\ (truthy rating = false -> question_rating info = None)
          /\ (truthy rating = true ->
              exists r,
                int_of rating = Ok r /\ question_rating info = Some r)).
Proof.
  intros q info Hbuild. unfold build_question_info in Hbuild.
  destruct (truthy (f_is_paid_only q)) eqn:Hpaid; cbn [negb] in Hbuild.
  - cbn [Py.bind] in Hbuild.
    destruct (f_content q) as [| | | |content| |]; try discriminate.
    cbn [Py.bind] in Hbuild.
    destruct (parse_content content) as [[d e] f] eqn:Hparse.
    injection Hbuild as <-. cbn.
    repeat split; try reflexivity; try discriminate.
    exists content. split; [reflexivity | now rewrite Hparse].
  - destruct (fetch_rating (f_title q)) as [rating|]; [|discriminate].
    cbn [Py.bind] in Hbuild.
    destruct (truthy rating) eqn:Hrating.
    + destruct (int_of rating) as [r|] eqn:Hint; [|discriminate].
      cbn [Py.bind] in Hbuild.
      destruct (f_content q) as [| | | |content| |]; try discriminate.
      cbn [Py.bind] in Hbuild.
      destruct (parse_content content) as [[d e] f] eqn:Hparse.
      injection Hbuild as <-. cbn.
      repeat split; try reflexivity; try discriminate.
      * exists content. split; [reflexivity | now rewrite Hparse].
      * intros _. exists rating. rewrite Hrating.
        repeat split; try discriminate.
        intros _. exists r. split; [exact Hint | reflexivity].
    + cbn [Py.bind] in Hbuild.
      destruct (f_content q) as [| | | |content| |]; try discriminate.
      cbn [Py.bind] in Hbuild.
      destruct (parse_content content) as [[d e] f] eqn:Hparse.
      injection Hbuild as <-. cbn.
      repeat split; try reflexivity; try discriminate.
      * exists content. split; [reflexivity | now rewrite Hparse].
      * intros _. exists rating. rewrite Hrating.
        repeat split; try discriminate.
Qed.

Lemma fetch_question_info_returns :
  forall (client_session : session) (slug : string) (t t' : trace)
         (response_data : value) (info : QuestionInfo),
    client_session (posts t) (question_info_payload slug)
      = ok200 response_data ->
    fetch_question_info client_session slug t = (Ok (Some info), t') ->
    t' = t ++ [LogInfo slug; Post (question_info_payload slug)]
    /\ exists q,
         read_question slug response_data = Ok q
         /\ build_question_info q = Ok (Some info).
Proof.
  intros cs slug t t' rd info Hresp Hrun.
  unfold fetch_question_info, mbind, emit, post, try_except, lift, ret
    in Hrun.
  rewrite posts_snoc_other, Hresp in Hrun by reflexivity.
  cbn [status json ok200 Z.eqb Pos.eqb negb] in Hrun.
  destruct (read_question slug rd) as [q|e].
  - injection Hrun as Hbuild <-. split.
    + rewrite <- app_assoc. reflexivity.
    + exists q. split; [reflexivity | exact Hbuild].
  - destruct e; discriminate.
Qed.

(** X12. Every record [fetch_question_info] returns carries the link built
    from the slug that was asked for, and the identifier, difficulty,
    title and paid-only mark of the answer, as they came; the three
    statistics are those of the evaluated [stats] literal. Nothing is
    logged beyond the title line. *)
Theorem question_info_fields :
  forall (client_session : session) (slug : string) (t t' : trace)
         (response_data question : value) (info : QuestionInfo),
    client_session (posts t) (question_info_payload slug)
      = ok200 response_data ->
    getpath response_data ["data"; "question"] = Ok question ->
    fetch_question_info client_session slug t = (Ok (Some info), t') ->
    link info = ("https://leetcode.com/problems/" ++ slug)%string
    /\ getitem question "questionFrontendId" = Ok (question_id info)
    /\ getitem question "difficulty" = Ok (difficulty info)
    /\ getitem question "title" = Ok (title info)
    /\ getitem question "isPaidOnly" = Ok (premium info)
    /\ (exists raw stats,
          getitem question "stats" = Ok raw
          /\ literal_eval raw = Ok stats
          /\ getitem stats "totalAccepted" = Ok (total_accepted info)
          /\ getitem stats "totalSubmission" = Ok (total_submission info)
          /\ getitem stats "acRate" = Ok (ac_rate info))
    /\ t' = t ++ [LogInfo slug; Post (question_info_payload slug)].
Proof.
  intros cs slug t t' rd question info Hresp Hq Hrun.
  destruct (fetch_question_info_returns cs slug t t' rd info Hresp Hrun)
    as (Ht' & q & Hread & Hbuild).
  destruct (read_question_fields slug rd question q Hq Hread)
    as (Hlink & Hid & Hdiff & Htitle & Hpaid & _ & Hstats).
  destruct (build_question_info_fields q info Hbuild)
    as (-> & -> & -> & -> & -> & -> & -> & -> & _).
  repeat split; assumption.
Qed.

(** X13. For a question that is not paid-only, a returned record has the
    description, first example and follow-up that [parse_content] makes
    of the content, which therefore was a string; and its rating is the
    integer made of what the rating table holds for the title, or [None]
    when the table holds nothing (or anything false) for it. *)
Theorem free_question_info :
  forall (client_session : session) (slug : string) (t t' : trace)
         (response_data question paid : value) (info : QuestionInfo),
    client_session (posts t) (question_info_payload slug)
      = ok200 response_data ->
    getpath response_data ["data"; "question"] = Ok question ->
    getitem question "isPaidOnly" = Ok paid ->
    truthy paid = false ->
    fetch_question_info client_session slug t = (Ok (Some info), t') ->
    (exists content,
       getitem question "content" = Ok (VStr content)
       /\ (description info, example_one info, follow_up info)
          = parse_content content)
    /\ exists rating,
         fetch_rating (title info) = Ok rating
         /\ (truthy rating = false -> question_rating info = None)
         /\ (truthy rating = true ->
             exists r,
               int_of rating = Ok r /\ question_rating info = Some r).
Proof.
  intros cs slug t t' rd question paid info Hresp Hq Hpaid Hfree Hrun.
  destruct (fetch_question_info_returns cs slug t t' rd info Hresp Hrun)
    as (_ & q & Hread & Hbuild).
  destruct (read_question_fields slug rd question q Hq Hread)
    as (_ & _ & _ & _ & Hpaid' & Hcontent & _).
  rewrite Hpaid in Hpaid'. injection Hpaid' as Hpaid'.
  rewrite <- Hpaid' in Hcontent. specialize (Hcontent Hfree).
  destruct (build_question_info_fields q info Hbuild)
    as (_ & _ & _ & Htitle & _ & _ & _ & _ & Hparse & _ & Hrating).
  rewrite <- Hpaid' in Hrating. specialize (Hrating Hfree).
  rewrite <- Htitle in Hrating. split; [|exact Hrating].
  destruct Hparse as (content & Hstr & Hparse).
  exists content. rewrite Hcontent, Hstr. split; [reflexivity | exact Hparse].
Qed.

(** X14. Statistics that [ast.literal_eval] rejects with a [ValueError] are the
    one malformed answer the handler catches: the answer is logged and
    [None] is returned. *)
Theorem unreadable_stats_are_logged :
  forall (client_session : session) (slug : string) (t : trace)
         (response_data question id difficulty title paid content
            raw : value),
    client_session (posts t) (question_info_payload slug)
      = ok200 response_data ->
    getpath response_data ["data"; "question"] = Ok question ->
    getitem question "questionFrontendId" = Ok id ->
    getitem question "difficulty" = Ok difficulty ->
    getitem question "title" = Ok title ->
    getitem question "isPaidOnly" = Ok paid ->
    getitem question "content" = Ok content ->
    getitem question "stats" = Ok raw ->
    literal_eval raw = Raise ValueError ->
    fetch_question_info client_session slug t
    = (Ok None,
       t ++ [LogInfo slug; Post (question_info_payload slug);
             LogDecode "fetch_question_info" response_data]).
Proof.
  intros cs slug t rd question id difficulty title paid content raw
    Hresp Hq Hid Hdiff Htitle Hpaid Hcontent Hraw Heval.
  assert (Hread : read_question slug rd = Raise ValueError).
  { unfold read_question. rewrite Hq. cbn [Py.bind].
    rewrite Hid, Hdiff, Htitle, Hpaid. cbn [Py.bind].
    rewrite Hcontent.
    destruct (negb (truthy paid)); cbn [Py.bind];
      rewrite Hraw; cbn [Py.bind]; rewrite Heval; reflexivity. }
  unfold fetch_question_info, mbind, emit, post, try_except, lift, ret.
  rewrite posts_snoc_other, Hresp by reflexivity.
  cbn [status json ok200 Z.eqb Pos.eqb negb].
  rewrite Hread. cbn [exn_eqb]. rewrite <- !app_assoc. reflexivity.
Qed.

End Records.

(** A free question, run with the plain collaborators. *)
Example run_free_question :
  @fetch_question_info plain_externals (answering (ok200 free_body))
    "two-sum" []
  = (Ok (Some free_info),
     [LogInfo "two-sum"; Post (question_info_payload "two-sum")]).
Proof. reflexivity. Qed.

Lemma question_info_fields_witness :
  link free_info = "https://leetcode.com/problems/two-sum"%string
  /\ getitem free_question "title" = Ok (title free_info).
Proof.
  destruct (@question_info_fields plain_externals
              (answering (ok200 free_body)) "two-sum" []
              [LogInfo "two-sum"; Post (question_info_payload "two-sum")]
              free_body free_question free_info eq_refl eq_refl eq_refl)
    as (Hlink & _ & _ & Htitle & _).
  split; [exact Hlink | exact Htitle].
Defined.

Lemma free_question_info_witness :
  exists content,
    getitem free_question "content" = Ok (VStr content)
    /\ (description free_info, example_one free_info, follow_up free_info)
       = @parse_content plain_externals content.
Proof.
  exact (proj1 (@free_question_info plain_externals
                  (answering (ok200 free_body)) "two-sum" []
                  [LogInfo "two-sum";
                   Post (question_info_payload "two-sum")]
                  free_body free_question (VBool false) free_info
                  eq_refl eq_refl eq_refl eq_refl eq_refl)).
Defined.

Lemma unreadable_stats_are_logged_witness :
  @fetch_question_info plain_externals
    (answering (ok200 broken_stats_body)) "two-sum" []
  = (Ok None,
     [] ++ [LogInfo "two-sum"; Post (question_info_payload "two-sum");
            LogDecode "fetch_question_info" broken_stats_body]).
Proof.
  apply (@unreadable_stats_are_logged plain_externals
           (answering (ok200 broken_stats_body)) "two-sum" []
           broken_stats_body broken_stats_question
           (VStr "1") (VStr "Easy") (VStr "Two Sum") (VBool false)
           (VStr free_content) (VStr "oops")); reflexivity.
Defined.

(** ** Slices *)

Lemma length_app (x y : string) :
  String.length (x ++ y) = (String.length x + String.length y)%nat.
Proof. induction x as [|c x IH]; simpl; [reflexivity | now rewrite IH]. Qed.

Lemma substring_none (n : nat) (s : string) :
  String.substring n 0 s = EmptyString.
Proof.
  revert n. induction s as [|c s IH]; intros [|n]; simpl; auto.
Qed.

Lemma substring_whole (s : string) :
  String.substring 0 (String.length s) s = s.
Proof. induction s as [|c s IH]; simpl; [reflexivity | now rewrite IH]. Qed.

Lemma substring_head (x y : string) :
  String.substring 0 (String.length x) (x ++ y) = x.
Proof.
  induction x as [|c x IH]; simpl.
  - apply substring_none.
  - now rewrite IH.
Qed.

Lemma substring_skip (x y : string) (n m : nat) :
  String.substring (String.length x + n) m (x ++ y)
  = String.substring n m y.
Proof. induction x as [|c x IH]; simpl; [reflexivity | exact IH]. Qed.

(** Slices with bounds inside the string are substrings. *)
Lemma slice_between (s : string) (lo hi : nat) :
  (lo <= hi <= String.length s)%nat ->
  Py.slice s (Some (Z.of_nat lo)) (Some (Z.of_nat hi))
  = String.substring lo (hi - lo) s.
Proof.
  intros Hbounds. unfold Py.slice, Py.clip.
  destruct (Z.ltb_spec (Z.of_nat lo) 0) as [Hneg|_]; [lia|].
  destruct (Z.ltb_spec (Z.of_nat hi) 0) as [Hneg|_]; [lia|].
  rewrite !Z.min_l by lia.
  destruct (Z.ltb_spec (Z.of_nat lo) (Z.of_nat hi)) as [Hlt|Hge].
  - rewrite Nat2Z.id. f_equal. lia.
  - replace (hi - lo)%nat with 0%nat by lia. now rewrite substring_none.
Qed.

Lemma slice_until (s : string) (hi : nat) :
  (hi <= String.length s)%nat ->
  Py.slice s None (Some (Z.of_nat hi)) = String.substring 0 hi s.
Proof.
  intros Hbound. unfold Py.slice, Py.clip.
  destruct (Z.ltb_spec (Z.of_nat hi) 0) as [Hneg|_]; [lia|].
  rewrite Z.min_l by lia.
  destruct (Z.ltb_spec 0 (Z.of_nat hi)) as [Hlt|Hge].
  - rewrite Z.sub_0_r, Nat2Z.id. reflexivity.
  - replace hi with 0%nat by lia. now rewrite substring_none.
Qed.

Lemma slice_from (s : string) (lo : nat) :
  (lo <= String.length s)%nat ->
  Py.slice s (Some (Z.of_nat lo)) None
  = String.substring lo (String.length s - lo) s.
Proof.
  intros Hbound. unfold Py.slice, Py.clip.
  destruct (Z.ltb_spec (Z.of_nat lo) 0) as [Hneg|_]; [lia|].
  rewrite Z.min_l by lia.
  destruct (Z.ltb_spec (Z.of_nat lo) (Z.of_nat (String.length s)))
    as [Hlt|Hge].
  - rewrite Nat2Z.id. f_equal. lia.
  - replace (String.length s - lo)%nat with 0%nat by lia.
    now rewrite substring_none.
Qed.

(** A bound of -1 stands for the last character. *)
Lemma slice_to_last (s : string) (lo : nat) :
  (lo <= String.length s)%nat ->
  Py.slice s (Some (Z.of_nat lo)) (Some (-1))
  = String.substring lo (String.length s - 1 - lo) s.
Proof.
  intros Hbound. unfold Py.slice, Py.clip.
  destruct (Z.ltb_spec (Z.of_nat lo) 0) as [Hneg|_]; [lia|].
  rewrite Z.min_l by lia. cbn [Z.ltb Z.compare].
  destruct (Z.ltb_spec (Z.of_nat lo)
              (Z.max (-1 + Z.of_nat (String.length s)) 0)) as [Hlt|Hge].
  - rewrite Nat2Z.id. f_equal. lia.
  - replace (String.length s - 1 - lo)%nat with 0%nat by lia.
    now rewrite substring_none.
Qed.

(** ** The sections of a question *)

Lemma string_app_assoc (x y z : string) :
  ((x ++ y) ++ z = x ++ y ++ z)%string.
Proof. induction x as [|c x IH]; simpl; [reflexivity | now rewrite IH]. Qed.

Lemma substring_middle (x y z : string) :
  String.substring (String.length x) (String.length y) (x ++ y ++ z) = y.
Proof.
  rewrite <- (Nat.add_0_r (String.length x)), substring_skip.
  apply substring_head.
Qed.

Section Split.

Context {ext : Externals}.

(** X15. When both example markers are found, the first behind the text
    [before] and the second behind the text [first] that follows the first
    marker, the description is made of [before] and the first example of
    [first], whatever comes after the second marker. *)
Theorem parse_content_sections :
  forall before first rest : string,
    let content :=
      (before ++ example_one_marker ++ first ++ example_two_marker
       ++ rest)%string in
    Py.find content example_one_marker
      = Z.of_nat (String.length before) ->
    Py.find content example_two_marker
      = Z.of_nat (String.length before
                  + String.length example_one_marker
                  + String.length first) ->
    fst (fst (parse_content content)) = html_to_markdown before
    /\ snd (fst (parse_content content)) = html_to_markdown first.
Proof.
  intros before first rest content Hone Htwo.
  unfold parse_content. rewrite Hone, Htwo. cbn [fst snd].
  assert (Hlen : String.length content
                 = (String.length before + String.length example_one_marker
                    + String.length first
                    + String.length (example_two_marker ++ rest))%nat).
  { unfold content. rewrite !length_app. lia. }
  split; f_equal.
  - rewrite slice_until by lia. apply substring_head.
  - rewrite <- Nat2Z.inj_add, slice_between by lia.
    replace (String.length before + String.length example_one_marker
             + String.length first
             - (String.length before + String.length example_one_marker))%nat
      with (String.length first) by lia.
    unfold content.
    rewrite <- (string_app_assoc before), <- length_app.
    apply substring_middle.
Qed.

(** X16. When the first marker is found and the second is not, the first
    example is made of what follows the first marker without its last
    character. *)
Theorem parse_content_without_second_marker :
  forall before rest : string,
    let content := (before ++ example_one_marker ++ rest)%string in
    Py.find content example_one_marker
      = Z.of_nat (String.length before) ->
    Py.find content example_two_marker = -1 ->
    fst (fst (parse_content content)) = html_to_markdown before
    /\ snd (fst (parse_content content))
       = html_to_markdown
           (String.substring 0 (String.length rest - 1) rest).
Proof.
  intros before rest content Hone Htwo.
  unfold parse_content. rewrite Hone, Htwo. cbn [fst snd].
  assert (Hlen : String.length content
                 = (String.length before + String.length example_one_marker
                    + String.length rest)%nat).
  { unfold content. rewrite !length_app. lia. }
  split; f_equal.
  - rewrite slice_until by lia. apply substring_head.
  - rewrite <- Nat2Z.inj_add, slice_to_last by lia.
    replace (String.length content - 1
             - (String.length before + String.length example_one_marker))%nat
      with (String.length rest - 1)%nat by lia.
    unfold content.
    rewrite <- (string_app_assoc before), <- length_app.
    rewrite <- (Nat.add_0_r (String.length (before ++ example_one_marker))).
    apply substring_skip.
Qed.

(** X17. There is a follow-up exactly when its label is found, and it is made
    of everything behind the label, to the end of the content. *)
Theorem parse_content_follow_up :
  forall content : string,
    (Py.find content follow_up_marker = -1 ->
     snd (parse_content content) = None)
    /\ (forall before rest : string,
          content = (before ++ follow_up_marker ++ rest)%string ->
          Py.find content follow_up_marker
            = Z.of_nat (String.length before) ->
          snd (parse_content content) = Some (html_to_markdown rest)).
Proof.
  intros content. split.
  - intros Hfind. unfold parse_content. rewrite Hfind. reflexivity.
  - intros before rest -> Hfind. unfold parse_content. rewrite Hfind.
    cbn [snd].
    destruct (Z.eqb_spec (Z.of_nat (String.length before)) (-1)) as [H|_];
      [lia|].
    cbn [negb]. do 2 f_equal.
    rewrite <- Nat2Z.inj_add, slice_from by (rewrite !length_app; lia).
    rewrite <- (string_app_assoc before), <- !length_app.
    replace (String.length ((before ++ follow_up_marker) ++ rest)
             - String.length (before ++ follow_up_marker))%nat
      with (String.length rest) by (rewrite (length_app (_ ++ _)); lia).
    rewrite <- (Nat.add_0_r (String.length (before ++ follow_up_marker))).
    rewrite substring_skip. apply substring_whole.
Qed.

End Split.

Lemma parse_content_sections_witness :
  fst (fst (@parse_content plain_externals
              ("<p>Add.</p>" ++ example_one_marker ++ "<pre>1+1</pre>"
               ++ example_two_marker ++ "<pre>2+2</pre>")%string))
  = @html_to_markdown plain_externals "<p>Add.</p>"
  /\ snd (fst (@parse_content plain_externals
                 ("<p>Add.</p>" ++ example_one_marker ++ "<pre>1+1</pre>"
                  ++ example_two_marker ++ "<pre>2+2</pre>")%string))
     = @html_to_markdown plain_externals "<pre>1+1</pre>".
Proof.
  apply (@parse_content_sections plain_externals "<p>Add.</p>"
           "<pre>1+1</pre>" "<pre>2+2</pre>"); reflexivity.
Defined.

Lemma parse_content_without_second_marker_witness :
  fst (fst (@parse_content plain_externals
              ("<p>Add.</p>" ++ example_one_marker
               ++ "<pre>1+1</pre>")%string))
  = @html_to_markdown plain_externals "<p>Add.</p>"
  /\ snd (fst (@parse_content plain_externals
                 ("<p>Add.</p>" ++ example_one_marker
                  ++ "<pre>1+1</pre>")%string))
     = @html_to_markdown plain_externals
         (String.substring 0 (String.length "<pre>1+1</pre>" - 1)
            "<pre>1+1</pre>").
Proof.
  apply (@parse_content_without_second_marker plain_externals "<p>Add.</p>"
           "<pre>1+1</pre>"); reflexivity.
Defined.

Lemma parse_content_follow_up_witness :
  snd (@parse_content plain_externals
         ("<p>Add.</p><p>" ++ follow_up_marker ++ "Faster?</p>")%string)
  = Some (@html_to_markdown plain_externals "Faster?</p>").
Proof.
  apply (proj2 (@parse_content_follow_up plain_externals _)
           "<p>Add.</p><p>" "Faster?</p>"); reflexivity.
Defined.

(** ** Text without markup, and runs of newlines *)

Lemma sub_without_markup (p : Re.pattern) :
  needs_markup p ->
  forall s, markup_free s = true -> Re.sub p s = s.
Proof.
  intros Hp. unfold Re.sub.
  induction s as [|c s IH]; intros Hfree; [reflexivity|].
  cbn [markup_free] in Hfree. apply andb_prop in Hfree as [Hc Hs].
  apply negb_true_iff in Hc.
  cbn [Re.sub_from]. rewrite (Hp c s Hc), (IH Hs). reflexivity.
Qed.

Lemma starts_with_other_head (a c : ascii) (w s : string) :
  Ascii.eqb a c = false -> starts_with (String a w) (String c s) = false.
Proof. intros H. rewrite starts_with_cons, H. reflexivity. Qed.

Lemma literal_needs_markup (a : ascii) (w repl : string) :
  markup_char a = true -> needs_markup (Re.literal (String a w) repl).
Proof.
  intros Ha c s Hc. unfold Re.literal.
  rewrite starts_with_other_head; [reflexivity|].
  apply Ascii.eqb_neq. intros ->. congruence.
Qed.

Lemma chain_needs_markup (a : ascii) (w : string) (lits : list string)
  (repl : string) :
  markup_char a = true -> needs_markup (Re.chain (String a w) lits repl).
Proof.
  intros Ha c s Hc. unfold Re.chain.
  rewrite starts_with_other_head; [reflexivity|].
  apply Ascii.eqb_neq. intros ->. congruence.
Qed.

Lemma code_block_needs_markup : needs_markup code_block.
Proof.
  intros c s Hc. unfold code_block.
  assert (Hlt : Ascii.eqb "<"%char c = false).
  { unfold markup_char in Hc. now apply orb_false_elim in Hc as [Hc _]. }
  rewrite !starts_with_other_head by exact Hlt. reflexivity.
Qed.

Lemma subsitutions_need_markup : Forall needs_markup subsitutions.
Proof.
  unfold subsitutions.
  repeat constructor;
    (apply literal_needs_markup || apply chain_needs_markup); reflexivity.
Qed.

(** X18. Text in which no [<] and no [&] occurs reaches the converter as it
    is. *)
Theorem prepare_html_keeps_plain_text :
  forall html : string,
    markup_free html = true -> prepare_html html = html.
Proof.
  intros html Hfree. unfold prepare_html.
  rewrite (sub_without_markup _ code_block_needs_markup html Hfree).
  pose proof subsitutions_need_markup as Hall.
  induction Hall as [|p ps Hp _ IH]; [reflexivity|].
  cbn [fold_left]. rewrite (sub_without_markup p Hp html Hfree). exact IH.
Qed.

Lemma prepare_html_keeps_plain_text_witness :
  prepare_html "Given n, return n + 1." = "Given n, return n + 1."%string.
Proof. apply prepare_html_keeps_plain_text. reflexivity. Defined.

(** X20. A run of [n] newlines at the head of the converter's output comes out
    as a run of [n / 2], rounded up: pairs are replaced once, from the
    left, and the result is not scanned again. *)
Theorem collapse_newlines_halves_a_run :
  forall (n : nat) (rest : string),
    starts_with_newline rest = false ->
    collapse_newlines (newlines n ++ rest)
    = (newlines (Nat.div2 (S n)) ++ collapse_newlines rest)%string.
Proof.
  intros n rest Hrest.
  assert (Hboth :
    collapse_newlines (newlines n ++ rest)
    = (newlines (Nat.div2 (S n)) ++ collapse_newlines rest)%string
    /\ collapse_newlines (newlines (S n) ++ rest)
       = (newlines (Nat.div2 (S (S n))) ++ collapse_newlines rest)%string).
  { induction n as [|n [IHn IHSn]].
    - split; [reflexivity|].
      cbn [newlines String.append Nat.div2].
      apply collapse_newlines_other. rewrite Hrest. apply andb_false_r.
    - split; [exact IHSn|].
      change (newlines (S (S n)) ++ rest)%string
        with (String nl (String nl (newlines n ++ rest))).
      rewrite collapse_newlines_pair, IHn. reflexivity. }
  exact (proj1 Hboth).
Qed.

Lemma collapse_newlines_halves_a_run_witness :
  collapse_newlines (newlines 5 ++ "b")
  = (newlines (Nat.div2 6) ++ collapse_newlines "b")%string.
Proof. apply collapse_newlines_halves_a_run. reflexivity. Defined.

Lemma collapse_newlines_fixed (s : string) :
  contains two_newlines s = false -> collapse_newlines s = s.
Proof.
  induction s as [|c s IH]; intros Hnone; [reflexivity|].
  rewrite contains_cons in Hnone. apply orb_false_elim in Hnone as [Hhead Hs].
  rewrite starts_with_two_newlines in Hhead.
  rewrite (collapse_newlines_other c s Hhead), (IH Hs). reflexivity.
Qed.

Section Unchanged.

Context {ext : Externals}.

(** When the converter's output has no two newlines in a row,
    [html_to_markdown] returns it unchanged. *)
Theorem html_to_markdown_without_pairs :
  forall html : string,
    contains (newline ++ newline) (markdownify (prepare_html html)) = false ->
    html_to_markdown html = markdownify (prepare_html html).
Proof.
  intros html Hnone. unfold html_to_markdown.
  now apply collapse_newlines_fixed.
Qed.

End Unchanged.

Lemma html_to_markdown_without_pairs_witness :
  @html_to_markdown plain_externals "<p>Add.</p>"
  = @markdownify plain_externals (prepare_html "<p>Add.</p>").
Proof.
  apply (@html_to_markdown_without_pairs plain_externals). reflexivity.
Defined.

(** ** Display units for questions *)

Section Shown.

Context {fmt : Formatting}.

(** X23. A premium question is shown by its number, title and link only: the
    embed has the description "Premium Question", no field and no
    footer, so no description, example, follow-up, rating or statistics
    of the record can appear. *)
Theorem premium_embed_shows_no_content :
  forall info : QuestionInfo,
    truthy (premium info) = true ->
    hashable (difficulty info) = true ->
    exists e,
      question_embed (Some info) = Ok (Shown e)
      /\ embed_title e
         = (str_of (question_id info) ++ ". " ++ str_of (title info))%string
      /\ embed_description e = Some "Premium Question"%string
      /\ embed_url e = Some (link info)
      /\ embed_fields e = []
      /\ embed_footer e = None.
Proof.
  intros info Hpremium Hhash. unfold question_embed, colour_of.
  rewrite Hhash. cbn [Py.bind]. rewrite Hpremium.
  eexists. split; [reflexivity|]. repeat split.
Qed.

(** X24. For any other question the embed carries the description, and its
    fields are, in this order: the first example, the follow-up if there
    is a non-empty one, the difficulty, and the rating if there is one,
    between spoiler marks. *)
Theorem free_embed_fields :
  forall info : QuestionInfo,
    truthy (premium info) = false ->
    hashable (difficulty info) = true ->
    exists e,
      question_embed (Some info) = Ok (Shown e)
      /\ embed_description e = Some (description info)
      /\ embed_url e = Some (link info)
      /\ embed_fields e
         = [{| field_name := "Example 1: ";
               field_value := VStr (example_one info);
               field_inline := false |}]
           ++ match follow_up info with
              | Some text =>
                  if has_follow_up info
                  then [{| field_name := "Follow up: ";
                           field_value := VStr text;
                           field_inline := false |}]
                  else []
              | None => []
              end
           ++ [{| field_name := "Difficulty: ";
                  field_value := difficulty info;
                  field_inline := true |}]
           ++ match question_rating info with
              | Some rating =>
                  [{| field_name := "Zerotrac Rating: ";
                      field_value :=
                        VStr ("||" ++ str_of (VInt rating) ++ "||");
                      field_inline := true |}]
              | None => []
              end.
Proof.
  intros info Hfree Hhash. unfold question_embed, colour_of.
  rewrite Hhash. cbn [Py.bind]. rewrite Hfree.
  eexists. split; [reflexivity|]. unfold has_follow_up.
  destruct (follow_up info) as [text|];
    [destruct (truthy (VStr text))|];
    destruct (question_rating info); repeat split.
Qed.

Lemma question_embed_colour :
  forall (info : QuestionInfo) (e : Embed),
    question_embed (Some info) = Ok (Shown e) ->
    colour_of (difficulty info) = Ok (embed_colour e).
Proof.
  intros info e Hshown. unfold question_embed in Hshown.
  destruct (colour_of (difficulty info)) as [colour|]; [|discriminate].
  cbn [Py.bind] in Hshown.
  destruct (truthy (premium info)).
  - injection Hshown as <-. reflexivity.
  - destruct (follow_up info) as [text|];
      [destruct (truthy (VStr text))|];
      destruct (question_rating info);
      injection Hshown as <-; reflexivity.
Qed.

(** X25. The colour of an embed tells the difficulty: green for "Easy", orange
    for "Medium", red for "Hard", and blue for everything else. *)
Theorem embed_colour_tells_difficulty :
  forall (info : QuestionInfo) (e : Embed),
    question_embed (Some info) = Ok (Shown e) ->
    (embed_colour e = green <-> difficulty info = VStr "Easy")
    /\ (embed_colour e = orange <-> difficulty info = VStr "Medium")
    /\ (embed_colour e = red <-> difficulty info = VStr "Hard")
    /\ (embed_colour e = blue <->
        difficulty info <> VStr "Easy"
        /\ difficulty info <> VStr "Medium"
        /\ difficulty info <> VStr "Hard").
Proof.
  intros info e Hshown. apply question_embed_colour in Hshown.
  unfold colour_of in Hshown.
  destruct (difficulty info) as [| | | |d| |];
    cbn [hashable eq_str] in Hshown; try discriminate.
  1-4: injection Hshown as <-; repeat split; intros Hx;
    first [ reflexivity | discriminate | repeat split; discriminate ].
  destruct (String.eqb d "Easy") eqn:Heasy;
    [|destruct (String.eqb d "Medium") eqn:Hmedium;
      [|destruct (String.eqb d "Hard") eqn:Hhard]];
    injection Hshown as <-;
    repeat match goal with
      | E : String.eqb _ _ = true |- _ => apply String.eqb_eq in E
      | E : String.eqb _ _ = false |- _ => apply String.eqb_neq in E
      end;
    subst; repeat split; intros Hx;
    first [ reflexivity | discriminate | congruence
          | repeat split; congruence
          | destruct Hx as (H1 & H2 & H3); congruence ].
Qed.

(** X26. [question_embed] raises only when the difficulty of the record is a
    list or an object, which cannot be looked up in the colour table; a
    missing record gives the failure embed. *)
Theorem question_embed_raises_on_unhashable :
  forall info : QuestionInfo,
    (hashable (difficulty info) = false ->
     question_embed (Some info) = Raise TypeError)
    /\ (hashable (difficulty info) = true ->
        exists e, question_embed (Some info) = Ok (Shown e)).
Proof.
  intros info. split; intros Hhash.
  - unfold question_embed, colour_of. rewrite Hhash. reflexivity.
  - unfold question_embed, colour_of. rewrite Hhash. cbn [Py.bind].
    destruct (truthy (premium info)); eexists; reflexivity.
Qed.

End Shown.

Example run_question_embed :
  @question_embed plain_formatting (Some paid_info) = Ok (Shown paid_embed)
  /\ @question_embed plain_formatting (Some free_info)
     = Ok (Shown free_embed)
  /\ @question_embed plain_formatting None = Ok question_error_embed.
Proof. repeat split; reflexivity. Qed.

Lemma premium_embed_shows_no_content_witness :
  exists e,
    @question_embed plain_formatting (Some paid_info) = Ok (Shown e)
    /\ embed_title e
       = (@str_of plain_formatting (question_id paid_info) ++ ". "
          ++ @str_of plain_formatting (title paid_info))%string
    /\ embed_description e = Some "Premium Question"%string
    /\ embed_url e = Some (link paid_info)
    /\ embed_fields e = []
    /\ embed_footer e = None.
Proof.
  apply (@premium_embed_shows_no_content plain_formatting paid_info);
    reflexivity.
Defined.

Lemma free_embed_fields_witness :
  exists e,
    @question_embed plain_formatting (Some free_info) = Ok (Shown e)
    /\ embed_description e = Some (description free_info).
Proof.
  destruct (@free_embed_fields plain_formatting free_info eq_refl eq_refl)
    as (e & He & Hd & _).
  exists e. split; [exact He | exact Hd].
Defined.

Lemma embed_colour_tells_difficulty_witness :
  embed_colour free_embed = green <-> difficulty free_info = VStr "Easy".
Proof.
  apply (@embed_colour_tells_difficulty plain_formatting free_info
           free_embed).
  reflexivity.
Defined.

Lemma question_embed_raises_on_unhashable_witness :
  @question_embed plain_formatting
    (Some {| premium := VBool false;
             question_id := VStr "1";
             difficulty := VList [];
             title := VStr "Two Sum";
             link := "";
             total_accepted := VNone;
             total_submission := VNone;
             ac_rate := VNone;
             question_rating := None;
             description := "";
             example_one := "";
             follow_up := None |})
  = Raise TypeError.
Proof.
  apply (proj1 (@question_embed_raises_on_unhashable plain_formatting _)).
  reflexivity.
Defined.

(** ** The commands of the cog *)

Module CogFacts.

Import Cog.

Lemma of_level_In (l : Level) :
  forall (all candidates : list value) (q : value),
    of_level l all = Ok candidates ->
    In q candidates ->
    In q all
    /\ exists level,
         getpath q ["difficulty"; "level"] = Ok level
         /\ eq_level level l = true.
Proof.
  induction all as [|x all IH]; intros candidates q Hof Hin.
  - injection Hof as <-. contradiction.
  - cbn [of_level] in Hof.
    destruct (getpath x ["difficulty"; "level"]) as [level|] eqn:Hlevel;
      [|discriminate].
    cbn [Py.bind] in Hof.
    destruct (of_level l all) as [tail|]; [|discriminate].
    cbn [Py.bind] in Hof. injection Hof as <-.
    destruct (eq_level level l) eqn:Heq.
    + destruct Hin as [<- | Hin].
      * split; [now left | now exists level].
      * destruct (IH tail q eq_refl Hin) as [Hall Hq].
        split; [now right | exact Hq].
    + destruct (IH tail q eq_refl Hin) as [Hall Hq].
      split; [now right | exact Hq].
Qed.

Lemma of_level_none (l : Level) :
  forall all : list value,
    Forall (fun q => exists level,
                getpath q ["difficulty"; "level"] = Ok level
                /\ eq_level level l = false) all ->
    of_level l all = Ok [].
Proof.
  induction 1 as [|q all (level & Hlevel & Hne) _ IH]; [reflexivity|].
  cbn [of_level]. rewrite Hlevel. cbn [Py.bind]. rewrite IH.
  cbn [Py.bind]. now rewrite Hne.
Qed.

Lemma choice_In (drawn : nat) (seq : list value) (q : value) :
  choice drawn seq = Ok q -> In q seq.
Proof.
  destruct seq as [|x seq]; [discriminate|].
  unfold choice. remember (x :: seq) as all eqn:Hall.
  intros Hq. injection Hq as <-.
  apply nth_In. apply Nat.mod_upper_bound. now rewrite Hall.
Qed.

Section Commands.

Context {fmt : Formatting}.

Lemma level_embed_shown :
  forall (w : world) (l : Level) (colour : Colour) (name : string)
         (data : value) (all : list value) (e : Embed),
    json (all_problems w) = Ok data ->
    getitem data "stat_status_pairs" = Ok (VList all) ->
    level_embed w l colour name = Ok e ->
    exists q level title slug,
      In q all
      /\ getpath q ["difficulty"; "level"] = Ok level
      /\ eq_level level l = true
      /\ getpath q ["stat"; "question__title"] = Ok title
      /\ getpath q ["stat"; "question__title_slug"] = Ok slug
      /\ embed_colour e = colour
      /\ embed_fields e
         = [{| field_name := name; field_value := title;
               field_inline := false |};
            {| field_name := "Link";
               field_value :=
                 VStr ("https://leetcode.com/problems/" ++ str_of slug
                       ++ "/");
               field_inline := false |}].
Proof.
  intros w l colour name data all e Hjson Hpairs Hembed.
  unfold level_embed in Hembed. rewrite Hjson in Hembed.
  cbn [Py.bind] in Hembed. rewrite Hpairs in Hembed.
  cbn [Py.bind Py.iter] in Hembed.
  destruct (of_level l all) as [candidates|] eqn:Hof; [|discriminate].
  cbn [Py.bind] in Hembed.
  destruct (choice (draw w) candidates) as [q|] eqn:Hchoice;
    [|discriminate].
  cbn [Py.bind] in Hembed.
  destruct (getpath q ["stat"; "question__title"]) as [title|] eqn:Htitle;
    [|discriminate].
  cbn [Py.bind] in Hembed.
  destruct (getpath q ["stat"; "question__title_slug"]) as [slug|]
    eqn:Hslug; [|discriminate].
  cbn [Py.bind] in Hembed. injection Hembed as <-.
  destruct (of_level_In l all candidates q Hof (choice_In _ _ _ Hchoice))
    as (Hall & level & Hlevel & Heq).
  exists q, level, title, slug. repeat split; assumption.
Qed.

(** X27. The question [question] shows for "easy", "medium" or "hard" is one
    of the list the service sent and has the level asked for (1, 2 or 3);
    its title is the first field, under the name of the difficulty, and
    the link is made of its slug. *)
Theorem shown_question_has_the_level :
  forall (w : world) (difficulty : string) (l : Level) (data : value)
         (all : list value) (e : Embed) (actions : list action),
    asked difficulty = Some l ->
    json (all_problems w) = Ok data ->
    getitem data "stat_status_pairs" = Ok (VList all) ->
    question w difficulty = (Ok tt, actions) ->
    In (SendEmbed e) actions ->
    exists q level title slug,
      In q all
      /\ getpath q ["difficulty"; "level"] = Ok level
      /\ eq_level level l = true
      /\ getpath q ["stat"; "question__title"] = Ok title
      /\ getpath q ["stat"; "question__title_slug"] = Ok slug
      /\ map field_value (embed_fields e)
         = [title;
            VStr ("https://leetcode.com/problems/" ++ str_of slug ++ "/")].
Proof.
  intros w d l data all e actions Hasked Hjson Hpairs Hrun Hin.
  assert (Hlevel :
    forall colour name,
      level_question w l colour name = (Ok tt, actions) ->
      exists q level title slug,
        In q all
        /\ getpath q ["difficulty"; "level"] = Ok level
        /\ eq_level level l = true
        /\ getpath q ["stat"; "question__title"] = Ok title
        /\ getpath q ["stat"; "question__title_slug"] = Ok slug
        /\ map field_value (embed_fields e)
           = [title;
              VStr ("https://leetcode.com/problems/" ++ str_of slug
                    ++ "/")]).
  { intros colour name Hq. unfold level_question in Hq.
    destruct (status (all_problems w) =? 200).
    - destruct (level_embed w l colour name) as [e'|] eqn:Hembed;
        [|discriminate].
      injection Hq as <-.
      destruct Hin as [Hin | [Hin | []]]; [discriminate|].
      injection Hin as ->.
      destruct (level_embed_shown w l colour name data all e Hjson Hpairs
                  Hembed)
        as (q & level & title & slug & H1 & H2 & H3 & H4 & H5 & _ & H7).
      exists q, level, title, slug. rewrite H7. repeat split; assumption.
    - injection Hq as <-.
      destruct Hin as [Hin | [Hin | []]]; discriminate. }
  unfold asked in Hasked. unfold question in Hrun.
  destruct (String.eqb d "easy").
  { injection Hasked as <-. exact (Hlevel _ _ Hrun). }
  destruct (String.eqb d "medium").
  { injection Hasked as <-. exact (Hlevel _ _ Hrun). }
  destruct (String.eqb d "hard"); [|discriminate].
  injection Hasked as <-. exact (Hlevel _ _ Hrun).
Qed.

(** X28. When the list cannot be had (any status but 200), the three level
    branches send the apology as a plain message and nothing else; the
    body of the answer is not read and nothing is raised. *)
Theorem level_question_apologises :
  forall (w : world) (difficulty : string) (l : Level),
    asked difficulty = Some l ->
    status (all_problems w) <> 200 ->
    question w difficulty
    = (Ok tt, [HttpGet all_url; SendText apology false]).
Proof.
  intros w d l Hasked Hstatus. apply Z.eqb_neq in Hstatus.
  unfold asked in Hasked. unfold question, level_question.
  rewrite Hstatus.
  destruct (String.eqb d "easy"); [reflexivity|].
  destruct (String.eqb d "medium"); [reflexivity|].
  destruct (String.eqb d "hard"); [reflexivity | discriminate].
Qed.

(** X29. When no question of the list has the level asked for,
    [random.choice] is given an empty list: the command raises
    [IndexError] and sends nothing. *)
Theorem no_candidate_raises :
  forall (w : world) (difficulty : string) (l : Level) (data : value)
         (all : list value),
    asked difficulty = Some l ->
    status (all_problems w) = 200 ->
    json (all_problems w) = Ok data ->
    getitem data "stat_status_pairs" = Ok (VList all) ->
    Forall (fun q => exists level,
                getpath q ["difficulty"; "level"] = Ok level
                /\ eq_level level l = false) all ->
    question w difficulty = (Raise IndexError, [HttpGet all_url]).
Proof.
  intros w d l data all Hasked Hstatus Hjson Hpairs Hnone.
  assert (Hlevel : forall colour name,
            level_question w l colour name
            = (Raise IndexError, [HttpGet all_url])).
  { intros colour name. unfold level_question, level_embed.
    rewrite Hstatus, Hjson. cbn [Z.eqb Pos.eqb Py.bind].
    rewrite Hpairs. cbn [Py.bind Py.iter].
    rewrite (of_level_none l all Hnone). reflexivity. }
  unfold asked in Hasked. unfold question.
  destruct (String.eqb d "easy").
  { injection Hasked as <-. apply Hlevel. }
  destruct (String.eqb d "medium").
  { injection Hasked as <-. apply Hlevel. }
  destruct (String.eqb d "hard"); [|discriminate].
  injection Hasked as <-. apply Hlevel.
Qed.

(** X30. A command answers the interaction at most once: when [question] or
    [daily] returns, exactly one message has been sent, and when it
    raises, none has. *)
Theorem commands_answer_once :
  forall (w : world) (difficulty : string),
    (fst (question w difficulty) = Ok tt
     /\ sends (snd (question w difficulty)) = 1%nat
     \/ (exists x, fst (question w difficulty) = Raise x)
        /\ sends (snd (question w difficulty)) = 0%nat)
    /\ (fst (daily w) = Ok tt /\ sends (snd (daily w)) = 1%nat
        \/ (exists x, fst (daily w) = Raise x)
           /\ sends (snd (daily w)) = 0%nat).
Proof.
  intros w d.
  assert (Hlevel : forall l colour name,
    fst (level_question w l colour name) = Ok tt
    /\ sends (snd (level_question w l colour name)) = 1%nat
    \/ (exists x, fst (level_question w l colour name) = Raise x)
       /\ sends (snd (level_question w l colour name)) = 0%nat).
  { intros l colour name. unfold level_question.
    destruct (status (all_problems w) =? 200).
    - destruct (level_embed w l colour name) as [e|x].
      + left. split; reflexivity.
      + right. split; [now exists x | reflexivity].
    - left. split; reflexivity. }
  split.
  - unfold question.
    destruct (String.eqb d "easy"); [apply Hlevel|].
    destruct (String.eqb d "medium"); [apply Hlevel|].
    destruct (String.eqb d "hard"); [apply Hlevel|].
    destruct (String.eqb d "random"); left; split; reflexivity.
  - unfold daily. destruct (daily_embed w) as [e|x].
    + left. split; reflexivity.
    + right. split; [now exists x | reflexivity].
Qed.

(** Any other word for the difficulty is answered by the hint, shown to
    the user alone, and no request is made. *)
Theorem unknown_difficulty_gets_the_hint :
  forall (w : world) (difficulty : string),
    asked difficulty = None ->
    difficulty <> "random"%string ->
    question w difficulty = (Ok tt, [SendText hint true]).
Proof.
  intros w d Hasked Hrandom. apply String.eqb_neq in Hrandom.
  unfold asked in Hasked. unfold question.
  destruct (String.eqb d "easy"); [discriminate|].
  destruct (String.eqb d "medium"); [discriminate|].
  destruct (String.eqb d "hard"); [discriminate|].
  rewrite Hrandom. reflexivity.
Qed.

End Commands.

End CogFacts.

Example run_question_command :
  @Cog.question plain_formatting sample_world "easy"
  = (Ok tt, [Cog.HttpGet Cog.all_url; Cog.SendEmbed easy_embed])
  /\ @Cog.question plain_formatting sample_world "hard"
     = (Raise IndexError, [Cog.HttpGet Cog.all_url])
  /\ @Cog.question plain_formatting sample_world "HARD"
     = (Ok tt, [Cog.SendText Cog.hint true]).
Proof. repeat split; reflexivity. Qed.

Lemma shown_question_has_the_level_witness :
  exists q level title slug,
    In q [problem "Two Sum" "two-sum" 1;
          problem "Add Two Numbers" "add-two-numbers" 2;
          problem "Palindrome Number" "palindrome-number" 1]
    /\ getpath q ["difficulty"; "level"] = Ok level
    /\ Cog.eq_level level Cog.level1 = true
    /\ getpath q ["stat"; "question__title"] = Ok title
    /\ getpath q ["stat"; "question__title_slug"] = Ok slug
    /\ map field_value (embed_fields easy_embed)
       = [title;
          VStr ("https://leetcode.com/problems/"
                ++ @str_of plain_formatting slug ++ "/")].
Proof.
  apply (@CogFacts.shown_question_has_the_level plain_formatting
           sample_world "easy" Cog.level1 problem_list _ easy_embed
           [Cog.HttpGet Cog.all_url; Cog.SendEmbed easy_embed]);
    try reflexivity.
  right. left. reflexivity.
Defined.

Lemma level_question_apologises_witness :
  @Cog.question plain_formatting down_world "hard"
  = (Ok tt, [Cog.HttpGet Cog.all_url; Cog.SendText Cog.apology false]).
Proof.
  apply (@CogFacts.level_question_apologises plain_formatting down_world
           "hard" Cog.level3); [reflexivity | discriminate].
Defined.

Lemma no_candidate_raises_witness :
  @Cog.question plain_formatting sample_world "hard"
  = (Raise IndexError, [Cog.HttpGet Cog.all_url]).
Proof.
  apply (@CogFacts.no_candidate_raises plain_formatting sample_world "hard"
           Cog.level3 problem_list
           [problem "Two Sum" "two-sum" 1;
            problem "Add Two Numbers" "add-two-numbers" 2;
            problem "Palindrome Number" "palindrome-number" 1]);
    try reflexivity.
  repeat constructor; eexists; split; reflexivity.
Defined.

Lemma unknown_difficulty_gets_the_hint_witness :
  @Cog.question plain_formatting sample_world "extreme"
  = (Ok tt, [Cog.SendText Cog.hint true]).
Proof.
  apply (@CogFacts.unknown_difficulty_gets_the_hint plain_formatting
           sample_world "extreme"); [reflexivity | discriminate].
Defined.
